(** * MultiScreenModal: a multi-step modal dialog controller

    Shallow embedding of [src/components/SigningModal/MultiScreenModal.js].

    Conventions of the embedding:
    - JavaScript numbers that the component handles (pixel widths, heights,
      step indices, the direction sign) are integers, modelled in [Z];
    - a value that may be [undefined] is an [option];
    - a thrown exception is the [Throw] branch of [result];
    - a React state cell is a field of a state record, a [useState] setter is
      a record update, and every closure the component creates is a
      constructor of [handler], interpreted by [invoke];
    - the caller's [onClose] is an arbitrary function on an abstract [World],
      so that "calls [onClose] once" reads [w' = onClose w];
    - what a screen's [content] callback returns is an abstract [UI] tree;
    - React is the least that the component relies on: a closure that is
      called is one of the last render, and after a call or a change of
      props the component renders again and its effects run until nothing
      changes ([runEffects]); the states rendered on the way, before the
      effects have run, are those of [commits]. *)

From Stdlib Require Import ZArith List String Bool Lia.
Import ListNotations.
Open Scope Z_scope.

(** ** JavaScript-level helpers *)

Inductive js_error : Type :=
| TypeError.

Inductive result (A : Type) : Type :=
| Ok (a : A)
| Throw (e : js_error).
Arguments Ok {A} a.
Arguments Throw {A} e.

Definition bind {A B : Type} (m : result A) (k : A -> result B) : result B :=
  match m with
  | Ok a => k a
  | Throw e => Throw e
  end.

Notation "x <- m ;; k" := (bind m (fun x => k))
  (at level 61, m at next level, right associativity).

Definition succeeds {A : Type} (m : result A) : bool :=
  match m with
  | Ok _ => true
  | Throw _ => false
  end.

(** [!b] for a boolean that may be [undefined]. *)
Definition js_not (b : option bool) : bool :=
  match b with
  | Some true => false
  | Some false | None => true
  end.

(** [n || d] for a number that may be [undefined]: [undefined] and [0] are
    falsy. *)
Definition js_or (n : option Z) (d : Z) : Z :=
  match n with
  | Some v => if v =? 0 then d else v
  | None => d
  end.

(** [xs[i]] for an integer index: [undefined] outside the array. *)
Definition js_index {A : Type} (xs : list A) (i : Z) : option A :=
  if i <? 0 then None else nth_error xs (Z.to_nat i).

(** ** The named easing presets of [@aragon/ui]'s [springs] *)

Module springs.
Inductive preset : Type :=
| swift
| instant
| smooth.
End springs.

(** ** The hooks of [../../hooks] *)

(** Modelled from the spec: the state of [useSteps] (the hook's file is not
    part of the sources).  SequencerState is
    [{ stepCount, currentStep, direction }]. *)
Record SequencerState : Type := {
  stepCount : Z;
  currentStep : Z;
  direction : Z
}.

(** Modelled from the spec: a sequencer is created at step 0; no navigation
    has happened, so the direction is the neutral 0. *)
Definition initialSequencer (n : Z) : SequencerState :=
  {| stepCount := n; currentStep := 0; direction := 0 |}.

(** Modelled from the spec: [useSteps(stepCount)] is called on every render
    with the current number of screens; step and direction persist, and the
    spec describes no re-clamping of the step. *)
Definition useSteps (n : Z) (s : SequencerState) : SequencerState :=
  {| stepCount := n; currentStep := currentStep s; direction := direction s |}.

(** Modelled from the spec: "[next()]: if [step < stepCount - 1], increments
    step, sets direction = +1.  Otherwise no-op." *)
Definition next (s : SequencerState) : SequencerState :=
  if currentStep s <? stepCount s - 1
  then {| stepCount := stepCount s;
          currentStep := currentStep s + 1;
          direction := 1 |}
  else s.

(** Modelled from the spec: "[prev()]: if [step > 0], decrements step, sets
    direction = -1.  Otherwise no-op." *)
Definition prev (s : SequencerState) : SequencerState :=
  if 0 <? currentStep s
  then {| stepCount := stepCount s;
          currentStep := currentStep s - 1;
          direction := -1 |}
  else s.

(** The SequencerState invariant of the data model. *)
Definition step_in_range (s : SequencerState) : Prop :=
  0 <= currentStep s <= stepCount s - 1.

(** A navigation request, and a sequence of them applied in order. *)
Inductive nav : Type :=
| Next
| Prev.

Definition navigate1 (s : SequencerState) (n : nav) : SequencerState :=
  match n with
  | Next => next s
  | Prev => prev s
  end.

Definition navigate (ns : list nav) (s : SequencerState) : SequencerState :=
  fold_left navigate1 ns s.

(** Modelled from the spec: the state of [useDeferredAnimation] (not part of
    the sources): whether an animation-start notification was received. *)
Record Gate : Type := {
  animationObserved : bool
}.

(** Modelled from the spec: a fresh controller instance has seen no
    notification. *)
Definition initialGate : Gate :=
  {| animationObserved := false |}.

(** Modelled from the spec: the "animate immediately instead of tweening"
    flag, true until the first notification. *)
Definition immediateAnimation (g : Gate) : bool :=
  negb (animationObserved g).

(** Modelled from the spec: [markAnimationObserved()], the second component
    of what [useDeferredAnimation()] returns. *)
Definition onAnimationStart (g : Gate) : Gate :=
  {| animationObserved := true |}.

(** What a client of the gate can do with it. *)
Inductive gate_op : Type :=
| Query
| Notify.

(** Runs a sequence of operations on a gate and collects the answer of every
    query, in order. *)
Fixpoint run_gate (g : Gate) (ops : list gate_op) : list bool :=
  match ops with
  | [] => []
  | Query :: ops' => immediateAnimation g :: run_gate g ops'
  | Notify :: ops' => run_gate (onAnimationStart g) ops'
  end.

(** Number of queries in a sequence of operations. *)
Definition queries (ops : list gate_op) : nat :=
  List.length (filter (fun o => match o with Query => true | Notify => false end) ops).

(** No notification occurs in a sequence of operations. *)
Definition quiet (ops : list gate_op) : bool :=
  forallb (fun o => match o with Query => true | Notify => false end) ops.

(** ** The component *)

Section Component.

(** [GU], the base grid unit of [@aragon/ui], in pixels. *)
Variable GU : Z.

(** Whatever the caller's [onClose] acts on. *)
Variable World : Type.

(** The UI tree a screen's [content] callback returns. *)
Variable UI : Type.

Definition DEFAULT_MODAL_WIDTH : Z := 80 * GU.

(** [noop] of [@aragon/ui]. *)
Definition noop : World -> World := fun w => w.

(** Every closure the component hands out, by the name it has in the
    source. *)
Inductive handler : Type :=
| prop_onClose            (* the [onClose] prop, after [defaultProps] *)
| handleModalClose_h      (* [handleModalClose] of [MultiScreenModal] *)
| steps_prev              (* [prev] of [useSteps] *)
| steps_next              (* [next] of [useSteps] *)
| onStart_h               (* [onStart] of [ModalContent] *)
| onRest_h (status : string)   (* the [onRest] arrow, applied to a status *)
| ref_h (clientHeight : Z).    (* the [ref] arrow, applied to an element *)

(** NavigationApi: what a screen's content receives. *)
Record NavigationApi : Type := {
  prevScreen : handler;
  nextScreen : handler;
  closeModal : handler
}.

(** ScreenDescriptor, with the shape of [MultiScreenModal.propTypes]; no
    field is required. *)
Record Screen : Type := {
  title : string;
  content : NavigationApi -> UI;
  disableClose : option bool;
  width : option Z
}.

(** The props of [MultiScreenModal], as the caller passes them. *)
Record Props : Type := {
  visible : bool;
  screens : list Screen;
  onClose : option (World -> World)
}.

(** [MultiScreenModal.defaultProps = { onClose: noop }]: React fills in a
    prop that is [undefined]. *)
Definition defaultProps (p : Props) : Props :=
  {| visible := visible p;
     screens := screens p;
     onClose := match onClose p with
                | Some f => Some f
                | None => Some noop
                end |}.

(** Calling a value that may be [undefined]. *)
Definition js_call (f : option (World -> World)) (w : World) : result World :=
  match f with
  | Some g => Ok (g w)
  | None => Throw TypeError
  end.

(** *** State *)

(** The state cells of [ModalContent] and of the hooks it calls. *)
Record ContentState : Type := {
  steps : SequencerState;          (* [useSteps] *)
  screensState : list Screen;      (* [useScreens]: [useState(screens)] *)
  applyStaticHeight : bool;        (* [useState(false)] *)
  height : option Z;               (* [useState(null)] *)
  gate : Gate                      (* [useDeferredAnimation] *)
}.

(** The state cell of [MultiScreenModal] together with its child's. *)
Record ModalState : Type := {
  currentScreen : option Screen;   (* [useState(screens[0])] *)
  modalContent : ContentState
}.

(** *** [useScreens] *)

(** [getScreen = step => screensState[step]]. *)
Definition getScreen (screensState : list Screen) (step : Z) : option Screen :=
  js_index screensState step.

(** What [useScreens(screens)] returns for the render. *)
Record ScreensApi : Type := {
  us_currentScreen : option Screen;
  us_direction : Z;
  us_getScreen : Z -> option Screen;
  us_next : handler;
  us_prev : handler;
  us_step : Z
}.

Definition useScreens (screens : list Screen) (st : ContentState) : ScreensApi :=
  let s := useSteps (Z.of_nat (List.length screens)) (steps st) in
  {| us_currentScreen := getScreen (screensState st) (currentStep s);
     us_direction := direction s;
     us_getScreen := getScreen (screensState st);
     us_next := steps_next;
     us_prev := steps_prev;
     us_step := currentStep s |}.

(** *** What [ModalContent] renders *)

(** The [height] of the container's style. *)
Inductive css_height : Type :=
| auto
| px (animated : Z).

(** The style objects given to [Transition]: opacity, the x of
    [translate3d(x px, 0, 0)], and the absolute positioning of [leave]. *)
Record style : Type := {
  opacity : Z;
  translateX : Z;
  position_absolute : bool
}.

(** The fragment [renderScreen] returns. *)
Record ScreenFragment : Type := {
  h1_textStyle : string;
  h1_marginTop : Z;
  h1_marginBottom : Z;
  h1_text : string;
  body : UI
}.

(** The [AnimatedDiv] of one transition slot. *)
Record SlotDiv : Type := {
  slot_ref : Z -> handler;
  slot_width : Z;
  slot_padding : Z;
  slot_animProps : style;
  slot_children : ScreenFragment
}.

Definition renderScreen (next prev : handler) (smallMode : bool)
    (screen : Screen) : ScreenFragment :=
  {| h1_textStyle := if smallMode then "title4"%string else "title3"%string;
     h1_marginTop := - (1 * GU);
     h1_marginBottom := 2 * GU;
     h1_text := title screen;
     body := content screen {| prevScreen := prev;
                               nextScreen := next;
                               closeModal := prop_onClose |} |}.

(** The children function of [Transition]: [step => animProps => ...].  The
    fragment has one child when [getScreen(step)] is a screen and none
    when it is [undefined]. *)
Definition renderSlot (api : ScreensApi) (viewportWidth : Z) (smallMode : bool)
    (step : Z) (animProps : style) : list SlotDiv :=
  match us_getScreen api step with
  | Some stepScreen =>
      [ {| slot_ref := ref_h;
           slot_width := Z.min viewportWidth
                           (js_or (width stepScreen) DEFAULT_MODAL_WIDTH);
           slot_padding := if smallMode then 3 * GU else 5 * GU;
           slot_animProps := animProps;
           slot_children :=
             renderScreen (us_next api) (us_prev api) smallMode stepScreen |} ]
  | None => []
  end.

(** The [config] arrow of [Transition]. *)
Definition transitionConfig (state : string) : springs.preset :=
  if String.eqb state "leave" then springs.instant else springs.smooth.

(** The [Spring] and the [Transition] that [ModalContent] returns. *)
Record ContentView : Type := {
  spring_config : springs.preset;
  spring_to_height : option Z;
  spring_immediate : bool;
  container_height : Z -> css_height;
  transition_config : string -> springs.preset;
  transition_items : Z;
  transition_immediate : bool;
  transition_from : style;
  transition_enter : style;
  transition_leave : style;
  transition_onRest : string -> handler;
  transition_onStart : handler;
  transition_children : Z -> style -> list SlotDiv
}.

Definition ModalContent (screens : list Screen) (viewportWidth : Z)
    (smallMode : bool) (st : ContentState) : ContentView :=
  let api := useScreens screens st in
  {| spring_config := springs.swift;
     spring_to_height := height st;
     spring_immediate := immediateAnimation (gate st);
     container_height := fun h => if applyStaticHeight st then px h else auto;
     transition_config := transitionConfig;
     transition_items := us_step api;
     transition_immediate := immediateAnimation (gate st);
     transition_from :=
       {| opacity := 0;
          translateX := 5 * GU * us_direction api;
          position_absolute := false |};
     transition_enter :=
       {| opacity := 1; translateX := 0; position_absolute := false |};
     transition_leave :=
       {| opacity := 0;
          translateX := 5 * GU * - us_direction api;
          position_absolute := true |};
     transition_onRest := onRest_h;
     transition_onStart := onStart_h;
     transition_children := renderSlot api viewportWidth smallMode |}.

(** *** [MultiScreenModal] *)

(** [modalWidth = currentScreenWidth || DEFAULT_MODAL_WIDTH]. *)
Definition modalWidth (currentScreenWidth : option Z) : Z :=
  js_or currentScreenWidth DEFAULT_MODAL_WIDTH.

(** [handleModalClose], with the [disableClose] and [onClose] of the render
    that created it. *)
Definition handleModalClose (disableClose : option bool)
    (onClose : option (World -> World)) (w : World) : result World :=
  if js_not disableClose then js_call onClose w else Ok w.

(** The [Modal] element that [MultiScreenModal] returns. *)
Record ModalView : Type := {
  modal_padding : Z;
  modal_width : Z;
  modal_onClose : handler;
  modal_visible : bool;
  modal_closeButton : bool;
  modal_children : ContentView
}.

(** One render of [MultiScreenModal], for the [width] that [Viewport]
    reports, here [viewport] (and the
    [smallMode] that [useViewport] reports to [ModalContent]).  The props are
    those React passes, [defaultProps] applied.  Destructuring
    [currentScreen] throws when it is [undefined]. *)
Definition MultiScreenModal (p : Props) (viewport : Z) (smallMode : bool)
    (st : ModalState) : result ModalView :=
  match currentScreen st with
  | None => Throw TypeError
  | Some cs =>
      let viewportWidth := viewport - 4 * GU in
      Ok {| modal_padding := 0;
            modal_width := Z.min viewportWidth (modalWidth (width cs));
            modal_onClose := handleModalClose_h;
            modal_visible := visible p;
            modal_closeButton := js_not (disableClose cs);
            modal_children :=
              ModalContent (screens p) viewportWidth smallMode (modalContent st) |}
  end.

(** [updateCurrentScreen = screen => setCurrentScreen(screen)]. *)
Definition updateCurrentScreen (screen : option Screen) (st : ModalState) : ModalState :=
  {| currentScreen := screen; modalContent := modalContent st |}.

(** *** The callbacks of [ModalContent] *)

(** [onStart], with the [immediateAnimation] of the render that created it:
    the gate is notified, and the flag read is the one from before. *)
Definition onStart (immediate : bool) (st : ContentState) : ContentState :=
  {| steps := steps st;
     screensState := screensState st;
     applyStaticHeight := if negb immediate then true else applyStaticHeight st;
     height := height st;
     gate := onAnimationStart (gate st) |}.

(** The [onRest] arrow of [Transition]. *)
Definition onRest (status : string) (st : ContentState) : ContentState :=
  if String.eqb status "update"
  then {| steps := steps st;
          screensState := screensState st;
          applyStaticHeight := false;
          height := height st;
          gate := gate st |}
  else st.

(** The [ref] arrow of a slot, for a mounted element: [setHeight]. *)
Definition setHeight (clientHeight : Z) (st : ContentState) : ContentState :=
  {| steps := steps st;
     screensState := screensState st;
     applyStaticHeight := applyStaticHeight st;
     height := Some clientHeight;
     gate := gate st |}.

(** [next] and [prev] as [useScreens] hands them out: those of
    [useSteps(screens.length)]. *)
Definition setSteps (f : SequencerState -> SequencerState)
    (screens : list Screen) (st : ContentState) : ContentState :=
  {| steps := f (useSteps (Z.of_nat (List.length screens)) (steps st));
     screensState := screensState st;
     applyStaticHeight := applyStaticHeight st;
     height := height st;
     gate := gate st |}.

(** *** The mounted component *)

(** A mounted [MultiScreenModal]: the props its parent passes, its state and
    the world its [onClose] acts on. *)
Record Mounted : Type := {
  props : Props;
  state : ModalState;
  world : World
}.

Definition withContent (f : ContentState -> ContentState) (m : Mounted) : Mounted :=
  {| props := props m;
     state := {| currentScreen := currentScreen (state m);
                 modalContent := f (modalContent (state m)) |};
     world := world m |}.

Definition withWorld (w : World) (m : Mounted) : Mounted :=
  {| props := props m; state := state m; world := w |}.

(** Calls a closure of the last render. *)
Definition invoke (h : handler) (m : Mounted) : result Mounted :=
  let p := defaultProps (props m) in
  match h with
  | prop_onClose =>
      w <- js_call (onClose p) (world m) ;;
      Ok (withWorld w m)
  | handleModalClose_h =>
      match currentScreen (state m) with
      | None => Throw TypeError
      | Some cs =>
          w <- handleModalClose (disableClose cs) (onClose p) (world m) ;;
          Ok (withWorld w m)
      end
  | steps_prev => Ok (withContent (setSteps prev (screens p)) m)
  | steps_next => Ok (withContent (setSteps next (screens p)) m)
  | onStart_h =>
      Ok (withContent
            (onStart (immediateAnimation (gate (modalContent (state m))))) m)
  | onRest_h status => Ok (withContent (onRest status) m)
  | ref_h clientHeight => Ok (withContent (setHeight clientHeight) m)
  end.

(** The two effects, run until nothing changes: [useScreens] stores the
    [screens] prop in [screensState], and [ModalContent] passes the resulting
    [currentScreen] to [onScreenChange], which is [updateCurrentScreen]. *)
Definition runEffects (m : Mounted) : Mounted :=
  let p := defaultProps (props m) in
  let c := modalContent (state m) in
  let c' := {| steps := useSteps (Z.of_nat (List.length (screens p))) (steps c);
               screensState := screens p;
               applyStaticHeight := applyStaticHeight c;
               height := height c;
               gate := gate c |} in
  {| props := props m;
     state := updateCurrentScreen
                (us_currentScreen (useScreens (screens p) c'))
                {| currentScreen := currentScreen (state m);
                   modalContent := c' |};
     world := world m |}.

(** Mounting: every state cell at its initial value, then the effects. *)
Definition mount (p : Props) (w : World) : Mounted :=
  runEffects
    {| props := p;
       state :=
         {| currentScreen := js_index (screens p) 0;
            modalContent :=
              {| steps := initialSequencer (Z.of_nat (List.length (screens p)));
                 screensState := screens p;
                 applyStaticHeight := false;
                 height := None;
                 gate := initialGate |} |};
       world := w |}.

(** What can happen to a mounted component: a closure of the last render is
    called, or the parent passes another list of screens. *)
Inductive event : Type :=
| Fire (h : handler)
| NewScreens (l : list Screen).

Definition react (e : event) (m : Mounted) : result Mounted :=
  match e with
  | Fire h =>
      m' <- invoke h m ;;
      Ok (runEffects m')
  | NewScreens l =>
      Ok (runEffects
            {| props := {| visible := visible (props m);
                           screens := l;
                           onClose := onClose (props m) |};
               state := state m;
               world := world m |})
  end.

Fixpoint reacts (es : list event) (m : Mounted) : result Mounted :=
  match es with
  | [] => Ok m
  | e :: es' =>
      m' <- react e m ;;
      reacts es' m'
  end.

(** The render of a mounted component. *)
Definition render (viewport : Z) (smallMode : bool) (m : Mounted) : result ModalView :=
  MultiScreenModal (defaultProps (props m)) viewport smallMode (state m).


(** The events that notify the gate of a component: the calls of
    [onStart]. *)
Definition is_start (e : event) : bool :=
  match e with
  | Fire onStart_h => true
  | _ => false
  end.

(** The gate of a mounted component. *)
Definition gate_of (m : Mounted) : Gate := gate (modalContent (state m)).

(** The screens of the close-guard scenario,
    [[{title: "A", disableClose: true}, {title: "B"}]], with their contents. *)
Definition closeGuardScreens (contentA contentB : NavigationApi -> UI) : list Screen :=
  [ {| title := "A"; content := contentA;
       disableClose := Some true; width := None |};
    {| title := "B"; content := contentB;
       disableClose := None; width := None |} ].

(** The world a reaction ends in, when it ends. *)
Definition world_after (r : result Mounted) : result World :=
  m <- r ;; Ok (world m).

(** The container of a mounted component is pinned. *)
Definition pinned (m : Mounted) : bool :=
  applyStaticHeight (modalContent (state m)).

(** The [screens] prop that the render of a mounted component receives. *)
Definition screens_of (m : Mounted) : list Screen :=
  screens (defaultProps (props m)).

(** The events that leave the [screens] prop alone. *)
Definition same_screens (e : event) : bool :=
  match e with
  | Fire _ => true
  | NewScreens _ => false
  end.

(** The sequencer of a mounted component. *)
Definition steps_of (m : Mounted) : SequencerState :=
  steps (modalContent (state m)).

(** What holds of a mounted component between events: the sequencer counts
    the screens of the [screens] prop, its step is one of them, and
    [currentScreen] mirrors the screen of that step. *)
Definition step_covered (m : Mounted) : Prop :=
  stepCount (steps_of m) = Z.of_nat (List.length (screens (props m)))
  /\ step_in_range (steps_of m)
  /\ currentScreen (state m)
     = getScreen (screens (props m)) (currentStep (steps_of m)).

(** What an event does before any effect runs: the state updates of the
    closure that is called, or the new props. *)
Definition update (e : event) (m : Mounted) : result Mounted :=
  match e with
  | Fire h => invoke h m
  | NewScreens l =>
      Ok {| props := {| visible := visible (props m);
                        screens := l;
                        onClose := onClose (props m) |};
            state := state m;
            world := world m |}
  end.

(** The effect of [useScreens]: [setScreensState(screens)]. *)
Definition setScreensStateEffect (m : Mounted) : Mounted :=
  withContent
    (fun c => {| steps := steps c;
                 screensState := screens (defaultProps (props m));
                 applyStaticHeight := applyStaticHeight c;
                 height := height c;
                 gate := gate c |}) m.

(** The effect of [ModalContent]: [onScreenChange(currentScreen)], with the
    [currentScreen] that [useScreens] returns for the state's render;
    [onScreenChange] is [updateCurrentScreen]. *)
Definition onScreenChangeEffect (m : Mounted) : Mounted :=
  {| props := props m;
     state := updateCurrentScreen
                (us_currentScreen
                   (useScreens (screens (defaultProps (props m)))
                      (modalContent (state m))))
                (state m);
     world := world m |}.

(** The states of which React commits a render while it handles one event,
    in order: after the update, after the effect of [useScreens], after the
    effect of [ModalContent].  (An effect whose dependencies are unchanged
    does not run; it would change nothing, and the state is listed again.)
    The last one is what [react] returns, up to the [stepCount] that every
    render passes to [useSteps] anyway. *)
Definition commits (e : event) (m : Mounted) : result (list Mounted) :=
  m1 <- update e m ;;
  Ok [ m1;
       setScreensStateEffect m1;
       onScreenChangeEffect (setScreensStateEffect m1) ].

(** A state in which the effects have run: what [mount] and [react] return.
    The renders that React commits before the effects have run are of
    states that need not be settled. *)
Definition settled (m' : Mounted) : Prop :=
  exists m0, m' = runEffects m0.

(** The close requests: the [Modal]'s and the one from a screen's content. *)
Definition is_close (e : event) : bool :=
  match e with
  | Fire prop_onClose | Fire handleModalClose_h => true
  | _ => false
  end.

(** The height that the [ref] of a slot measured last, [h0] when the event
    is not a measure. *)
Definition measured (h0 : option Z) (e : event) : option Z :=
  match e with
  | Fire (ref_h clientHeight) => Some clientHeight
  | _ => h0
  end.

Definition last_measure (es : list event) : option Z :=
  fold_left measured es None.

(** An index is one of a list's. *)
Definition covers {A : Type} (xs : list A) (i : Z) : bool :=
  (0 <=? i) && (i <? Z.of_nat (List.length xs)).

(** * Properties *)

(** ** The step sequencer *)

Lemma next_stepCount (s : SequencerState) : stepCount (next s) = stepCount s.
Proof. unfold next. destruct (currentStep s <? stepCount s - 1); reflexivity. Qed.

Lemma prev_stepCount (s : SequencerState) : stepCount (prev s) = stepCount s.
Proof. unfold prev. destruct (0 <? currentStep s); reflexivity. Qed.

Lemma next_in_range (s : SequencerState) :
  step_in_range s -> step_in_range (next s).
Proof.
  unfold step_in_range, next.
  destruct (Z.ltb_spec (currentStep s) (stepCount s - 1)); simpl; lia.
Qed.

Lemma prev_in_range (s : SequencerState) :
  step_in_range s -> step_in_range (prev s).
Proof.
  unfold step_in_range, prev.
  destruct (Z.ltb_spec 0 (currentStep s)); simpl; lia.
Qed.

Lemma next_at_last (s : SequencerState) :
  currentStep s = stepCount s - 1 -> next s = s.
Proof.
  intros E. unfold next.
  destruct (Z.ltb_spec (currentStep s) (stepCount s - 1)); [lia | reflexivity].
Qed.

Lemma prev_at_first (s : SequencerState) :
  currentStep s = 0 -> prev s = s.
Proof.
  intros E. unfold prev.
  destruct (Z.ltb_spec 0 (currentStep s)); [lia | reflexivity].
Qed.

Lemma navigate_in_range (ns : list nav) :
  forall s, step_in_range s ->
    step_in_range (navigate ns s) /\ stepCount (navigate ns s) = stepCount s.
Proof.
  unfold navigate.
  induction ns as [| n ns IH]; intros s Hs; simpl.
  - split; [assumption | reflexivity].
  - destruct n; simpl.
    + destruct (IH (next s) (next_in_range s Hs)) as [H1 H2].
      split; [assumption | rewrite H2; apply next_stepCount].
    + destruct (IH (prev s) (prev_in_range s Hs)) as [H1 H2].
      split; [assumption | rewrite H2; apply prev_stepCount].
Qed.

(** [k] calls of [next] from step 0 reach step [k], as long as [k] is a step
    of the sequencer. *)
Lemma iter_next_from_0 (n : Z) (k : nat) :
  Z.of_nat k <= n - 1 ->
  Nat.iter k next (initialSequencer n)
  = {| stepCount := n;
       currentStep := Z.of_nat k;
       direction := match k with O => 0 | S _ => 1 end |}.
Proof.
  induction k as [| k IH]; intros Hk.
  - reflexivity.
  - simpl Nat.iter. rewrite IH by lia. unfold next; simpl.
    destruct (Z.ltb_spec (Z.of_nat k) (n - 1)); [| lia].
    f_equal. lia.
Qed.

(** In the component, the sequencer is that of [useSteps(screens.length)]:
    an event that is not a new list of screens keeps the step among the
    screens. *)
Lemma runEffects_step_covered (m : Mounted) :
  step_in_range
    (useSteps (Z.of_nat (List.length (screens (props m)))) (steps_of m)) ->
  step_covered (runEffects m).
Proof.
  intros H. unfold step_covered, steps_of. simpl.
  split; [reflexivity | split; [exact H | reflexivity]].
Qed.

Lemma useSteps_same (s : SequencerState) :
  useSteps (stepCount s) s = s.
Proof. destruct s; reflexivity. Qed.

Lemma useSteps_navigation (f : SequencerState -> SequencerState)
    (s : SequencerState) :
  stepCount (f s) = stepCount s ->
  step_in_range (f s) ->
  step_in_range (useSteps (stepCount s) (f (useSteps (stepCount s) s))).
Proof.
  intros Hcount Hrange. rewrite useSteps_same.
  rewrite <- Hcount. rewrite useSteps_same. exact Hrange.
Qed.

Lemma react_step_covered (e : event) (m m' : Mounted) :
  same_screens e = true -> react e m = Ok m' ->
  step_covered m -> step_covered m'.
Proof.
  destruct e as [h | l]; [intros _ | discriminate].
  intros H (Hcount & Hrange & _). simpl in H.
  destruct (invoke h m) as [m1 | err] eqn:E; [| discriminate].
  injection H as <-. apply runEffects_step_covered.
  unfold steps_of in *.
  assert (Hsame : step_in_range
                    (useSteps (Z.of_nat (List.length (screens (props m))))
                       (steps (modalContent (state m)))))
    by (rewrite <- Hcount, useSteps_same; exact Hrange).
  destruct h; simpl in E.
  - destruct (js_call _ _); [| discriminate].
    injection E as <-. exact Hsame.
  - destruct (currentScreen (state m)); [| discriminate].
    destruct (handleModalClose _ _ _); [| discriminate].
    injection E as <-. exact Hsame.
  - injection E as <-.
    change (step_in_range
              (useSteps (Z.of_nat (List.length (screens (props m))))
                 (prev (useSteps (Z.of_nat (List.length (screens (props m))))
                          (steps (modalContent (state m))))))).
    rewrite <- Hcount. apply useSteps_navigation;
      [apply prev_stepCount | apply prev_in_range, Hrange].
  - injection E as <-.
    change (step_in_range
              (useSteps (Z.of_nat (List.length (screens (props m))))
                 (next (useSteps (Z.of_nat (List.length (screens (props m))))
                          (steps (modalContent (state m))))))).
    rewrite <- Hcount. apply useSteps_navigation;
      [apply next_stepCount | apply next_in_range, Hrange].
  - injection E as <-. exact Hsame.
  - injection E as <-. unfold onRest.
    destruct (String.eqb status "update"); exact Hsame.
  - injection E as <-. exact Hsame.
Qed.

Lemma react_same_screens (e : event) (m m' : Mounted) :
  same_screens e = true -> react e m = Ok m' -> props m' = props m.
Proof.
  destruct e as [h | l]; [intros _ | discriminate].
  simpl. destruct (invoke h m) as [m1 | err] eqn:E; [| discriminate].
  simpl. intros [= <-]. simpl.
  destruct h; simpl in E.
  - destruct (js_call _ _); [| discriminate]. injection E as <-. reflexivity.
  - destruct (currentScreen (state m)); [| discriminate].
    destruct (handleModalClose _ _ _); [| discriminate].
    injection E as <-. reflexivity.
  - injection E as <-. reflexivity.
  - injection E as <-. reflexivity.
  - injection E as <-. reflexivity.
  - injection E as <-. reflexivity.
  - injection E as <-. reflexivity.
Qed.

Lemma reacts_same_screens (es : list event) :
  forall m m', forallb same_screens es = true -> reacts es m = Ok m' ->
    props m' = props m.
Proof.
  induction es as [| e es IH]; simpl; intros m m' Hes H.
  - injection H as <-. reflexivity.
  - apply andb_prop in Hes. destruct Hes as [He Hes].
    destruct (react e m) as [m1 | err] eqn:E; [| discriminate].
    simpl in H. rewrite (IH m1 m' Hes H). apply (react_same_screens e m m1 He E).
Qed.

Lemma reacts_step_covered (es : list event) :
  forall m m', forallb same_screens es = true -> reacts es m = Ok m' ->
    step_covered m -> step_covered m'.
Proof.
  induction es as [| e es IH]; simpl; intros m m' Hes H Hm.
  - injection H as <-. exact Hm.
  - apply andb_prop in Hes. destruct Hes as [He Hes].
    destruct (react e m) as [m1 | err] eqn:E; [| discriminate].
    simpl in H. apply (IH m1 m' Hes H).
    apply (react_step_covered e m m1 He E Hm).
Qed.

Lemma mount_step_covered (p : Props) (w : World) :
  screens p <> [] -> step_covered (mount p w).
Proof.
  intros Hne. unfold mount. apply runEffects_step_covered.
  unfold step_in_range, steps_of. simpl.
  destruct (screens p); [contradiction | simpl List.length; lia].
Qed.

(** C1.  For a sequencer with [stepCount = N] whose step is in [[0, N-1]]:
    the step is still in that range after [next()], after [prev()] and after
    any sequence of them; [next()] at step [N-1] and [prev()] at step 0
    change nothing (no wrap-around, and both are total functions, so nothing
    is raised); and [N-1] calls of [next()] from step 0 reach step [N-1],
    where one more call changes nothing.  In a component mounted with a
    non-empty list, which [useScreens] counts for [useSteps], the step is a
    step of the list after any calls of its closures. *)
Theorem sequencer_step_stays_in_range (s : SequencerState)
    (Hrange : step_in_range s) :
  let N := stepCount s in
  step_in_range (next s)
  /\ step_in_range (prev s)
  /\ (forall ns, step_in_range (navigate ns s) /\ stepCount (navigate ns s) = N)
  /\ (currentStep s = N - 1 -> next s = s)
  /\ (currentStep s = 0 -> prev s = s)
  /\ (let top := Nat.iter (Z.to_nat (N - 1)) next (initialSequencer N) in
      currentStep top = N - 1 /\ currentStep (next top) = N - 1)
  /\ (forall p w es m,
        screens p <> [] -> forallb same_screens es = true ->
        reacts es (mount p w) = Ok m ->
        0 <= currentStep (steps_of m)
          <= Z.of_nat (List.length (screens p)) - 1).
Proof.
  intros N.
  assert (HN : 1 <= N) by (unfold step_in_range in Hrange; subst N; lia).
  split; [apply next_in_range, Hrange |].
  split; [apply prev_in_range, Hrange |].
  split; [intros ns; apply navigate_in_range, Hrange |].
  split; [apply next_at_last |].
  split; [apply prev_at_first |].
  split.
  - cbv zeta. rewrite iter_next_from_0 by lia. split.
    + simpl. lia.
    + rewrite next_at_last; simpl; lia.
  - intros p w es m Hne Hes H.
    destruct (reacts_step_covered es _ _ Hes H (mount_step_covered p w Hne))
      as (Hc & Hr & _).
    assert (Hp : props m = p) by exact (reacts_same_screens es _ m Hes H).
    rewrite <- Hp, <- Hc. apply Hr.
Qed.

Lemma next_moves (s : SequencerState) :
  currentStep s < stepCount s - 1 ->
  direction (next s) = 1 /\ currentStep (next s) = currentStep s + 1.
Proof.
  intros H. unfold next.
  destruct (Z.ltb_spec (currentStep s) (stepCount s - 1)); [| lia].
  split; reflexivity.
Qed.

Lemma prev_moves (s : SequencerState) :
  0 < currentStep s ->
  direction (prev s) = -1 /\ currentStep (prev s) = currentStep s - 1.
Proof.
  intros H. unfold prev.
  destruct (Z.ltb_spec 0 (currentStep s)); [| lia].
  split; reflexivity.
Qed.

(** C6.  After a [next()] that moves ([step < stepCount - 1]) the direction
    is +1, after a [prev()] that moves ([step > 0]) it is -1, and a clamped
    call ([next()] at the last step, [prev()] at step 0) leaves the
    direction as it was. *)
Theorem direction_follows_navigation (s : SequencerState) :
  (currentStep s < stepCount s - 1 ->
     direction (next s) = 1 /\ currentStep (next s) = currentStep s + 1)
  /\ (0 < currentStep s ->
     direction (prev s) = -1 /\ currentStep (prev s) = currentStep s - 1)
  /\ (currentStep s = stepCount s - 1 -> direction (next s) = direction s)
  /\ (currentStep s = 0 -> direction (prev s) = direction s).
Proof.
  split; [| split; [| split]].
  - apply next_moves.
  - apply prev_moves.
  - intros E. rewrite next_at_last by exact E. reflexivity.
  - intros E. rewrite prev_at_first by exact E. reflexivity.
Qed.

(** ** The deferred-animation gate *)

(** Once the flag is false, every query answers false, whatever else
    arrives. *)
Lemma run_gate_observed (ops : list gate_op) :
  forall g, immediateAnimation g = false ->
    run_gate g ops = repeat false (queries ops).
Proof.
  induction ops as [| [|] ops IH]; intros g Hg.
  - reflexivity.
  - simpl. rewrite Hg. f_equal. apply IH, Hg.
  - simpl. apply IH. reflexivity.
Qed.

(** Without a notification the answers do not depend on what follows. *)
Lemma run_gate_quiet (before : list gate_op) :
  quiet before = true ->
  forall g rest,
    run_gate g (before ++ rest)
    = repeat (immediateAnimation g) (queries before) ++ run_gate g rest.
Proof.
  induction before as [| [|] before IH]; simpl; intros Hq g rest.
  - reflexivity.
  - f_equal. apply IH, Hq.
  - discriminate.
Qed.

Lemma react_gate (e : event) (m m' : Mounted) :
  react e m = Ok m' ->
  gate_of m' = if is_start e then onAnimationStart (gate_of m) else gate_of m.
Proof.
  unfold gate_of. destruct e as [h | l]; simpl.
  - destruct h; simpl;
      try (intros [= <-]; reflexivity).
    + destruct (js_call _ _); simpl; intros [= <-]; reflexivity.
    + destruct (currentScreen (state m)); [| discriminate].
      destruct (handleModalClose _ _ _); simpl; intros [= <-]; reflexivity.
    + unfold onRest. destruct (String.eqb status "update");
        intros [= <-]; reflexivity.
  - intros [= <-]. reflexivity.
Qed.

Lemma reacts_gate (es : list event) :
  forall m m', reacts es m = Ok m' ->
    immediateAnimation (gate_of m')
    = immediateAnimation (gate_of m) && negb (existsb is_start es).
Proof.
  induction es as [| e es IH]; simpl; intros m m' H.
  - injection H as <-. rewrite andb_true_r. reflexivity.
  - destruct (react e m) as [m1 | err] eqn:E; [| discriminate].
    simpl in H. rewrite (IH _ _ H), (react_gate _ _ _ E).
    destruct (is_start e); simpl.
    + rewrite andb_false_r. reflexivity.
    + reflexivity.
Qed.

(** C4.  For one gate, created with the controller instance: every query
    made before the first animation-start notification answers true, and
    every query made after it answers false, however many notifications
    follow.  In a mounted component, where [onStart] is the only notifier,
    the flag of a render is true exactly when no transition has started
    since mounting. *)
Theorem gate_flag_is_one_way (before : list gate_op)
    (Hquiet : quiet before = true) :
  run_gate initialGate before = repeat true (queries before)
  /\ (forall after,
        run_gate initialGate (before ++ Notify :: after)
        = repeat true (queries before) ++ repeat false (queries after))
  /\ (forall n, immediateAnimation
                  (Nat.iter (S n) onAnimationStart initialGate) = false)
  /\ (forall p w es m,
        reacts es (mount p w) = Ok m ->
        immediateAnimation (gate_of m) = negb (existsb is_start es)).
Proof.
  split; [| split; [| split]].
  - rewrite <- (app_nil_r before) at 1.
    rewrite (run_gate_quiet before Hquiet). simpl. apply app_nil_r.
  - intros after. rewrite (run_gate_quiet before Hquiet). simpl.
    f_equal. apply run_gate_observed. reflexivity.
  - intros n. reflexivity.
  - intros p w es m H. rewrite (reacts_gate es _ _ H). reflexivity.
Qed.

(** ** Closing *)

Lemma withWorld_same (m : Mounted) : withWorld (world m) m = m.
Proof. destruct m; reflexivity. Qed.

(** What [defaultProps] is for: [handleModalClose] on the props as passed
    throws when [onClose] is missing and the screen can be closed. *)
Lemma handleModalClose_without_default (w : World) :
  handleModalClose None None w = Throw TypeError.
Proof. reflexivity. Qed.



(** C10.  The [closeModal] that a screen's content receives is the [onClose]
    prop itself, not [handleModalClose]: called from a screen whose
    [disableClose] is true it applies [onClose], where the [Modal]'s close
    request does nothing. *)
Theorem closeModal_bypasses_the_guard (m : Mounted) (cs : Screen)
    (f : World -> World)
    (Hcs : currentScreen (state m) = Some cs)
    (Hdisabled : disableClose cs = Some true)
    (HonClose : onClose (props m) = Some f) :
  (forall nextH prevH smallMode screen,
      body (renderScreen nextH prevH smallMode screen)
      = content screen {| prevScreen := prevH;
                          nextScreen := nextH;
                          closeModal := prop_onClose |})
  /\ (forall viewport smallMode, exists v,
        render viewport smallMode m = Ok v
        /\ modal_onClose v = handleModalClose_h
        /\ modal_closeButton v = false
        /\ forall step animProps slot,
             In slot (transition_children (modal_children v) step animProps) ->
             exists screen,
               body (slot_children slot)
               = content screen {| prevScreen := steps_prev;
                                   nextScreen := steps_next;
                                   closeModal := prop_onClose |})
  /\ invoke prop_onClose m = Ok (withWorld (f (world m)) m)
  /\ invoke handleModalClose_h m = Ok m.
Proof.
  split; [| split; [| split]].
  - reflexivity.
  - intros viewport smallMode. unfold render, MultiScreenModal. rewrite Hcs.
    eexists. split; [reflexivity |]. simpl. rewrite Hdisabled.
    split; [reflexivity | split; [reflexivity |]].
    intros step animProps slot. unfold renderSlot.
    destruct (us_getScreen _ step) as [screen |]; simpl; [| tauto].
    intros [<- | []]. exists screen. reflexivity.
  - unfold invoke. simpl. rewrite HonClose. reflexivity.
  - unfold invoke. rewrite Hcs. unfold handleModalClose. rewrite Hdisabled.
    simpl. apply f_equal, withWorld_same.
Qed.

(** ** Widths *)

Lemma js_or_set (w d : Z) : w <> 0 -> js_or (Some w) d = w.
Proof.
  intros Hw. unfold js_or. destruct (Z.eqb_spec w 0); [contradiction | reflexivity].
Qed.

(** A width of 0 is falsy for [||]: the default is taken. *)
Lemma js_or_zero (d : Z) : js_or (Some 0) d = d.
Proof. reflexivity. Qed.

Lemma renderSlot_width (screens : list Screen) (st : ContentState)
    (viewportWidth : Z) (smallMode : bool) (step : Z) (animProps : style)
    (stepScreen : Screen) :
  getScreen (screensState st) step = Some stepScreen ->
  map slot_width
    (renderSlot (useScreens screens st) viewportWidth smallMode step animProps)
  = [Z.min viewportWidth (js_or (width stepScreen) DEFAULT_MODAL_WIDTH)].
Proof.
  intros H. unfold renderSlot. simpl. rewrite H. reflexivity.
Qed.

(** C3.  With [V] the [viewportWidth] of the source and [S] the screen of a
    slot, the slot is [min(V, S.width)] wide when [S.width] is set (a width
    is a positive number, so not 0) and [min(V, DEFAULT_MODAL_WIDTH)] wide
    when it is not; the [Modal] itself has the same width for the current
    screen.  For [S.width = 500]: 300 at [V = 300], 500 at [V = 1000]. *)
Theorem rendered_width_is_clamped (V : Z) (S : Screen)
    (screens : list Screen) (st : ContentState) (smallMode : bool)
    (step : Z) (animProps : style)
    (Hslot : getScreen (screensState st) step = Some S) :
  let slot_widths viewportWidth :=
    map slot_width
      (renderSlot (useScreens screens st) viewportWidth smallMode step animProps) in
  (forall w, width S = Some w -> w <> 0 -> slot_widths V = [Z.min V w])
  /\ (width S = None -> slot_widths V = [Z.min V DEFAULT_MODAL_WIDTH])
  /\ (forall p viewport ms,
        currentScreen ms = Some S -> viewport - 4 * GU = V ->
        exists v, MultiScreenModal p viewport smallMode ms = Ok v
          /\ (forall w, width S = Some w -> w <> 0 -> modal_width v = Z.min V w)
          /\ (width S = None -> modal_width v = Z.min V DEFAULT_MODAL_WIDTH))
  /\ (width S = Some 500 -> slot_widths 300 = [300] /\ slot_widths 1000 = [500]).
Proof.
  intros slot_widths. subst slot_widths. cbv beta.
  split; [| split; [| split]].
  - intros w Hw Hnz. rewrite (renderSlot_width _ _ _ _ _ _ _ Hslot), Hw.
    rewrite js_or_set by exact Hnz. reflexivity.
  - intros Hw. rewrite (renderSlot_width _ _ _ _ _ _ _ Hslot), Hw. reflexivity.
  - intros p viewport ms Hcs HV. unfold MultiScreenModal. rewrite Hcs.
    subst V. eexists. split; [reflexivity |]. cbn [modal_width].
    unfold modalWidth. split.
    + intros w Hw Hnz. rewrite Hw, js_or_set by exact Hnz. reflexivity.
    + intros Hw. rewrite Hw. reflexivity.
  - intros Hw. rewrite !(renderSlot_width _ _ _ _ _ _ _ Hslot), Hw.
    split; reflexivity.
Qed.

(** ** Transitions *)

(** C8.  The [Transition] is configured with [springs.instant] for the
    leave phase and [springs.smooth] for every other phase (enter, and the
    update of an item at rest); the [Spring] of the height is configured
    with [springs.swift]. *)
Theorem easing_presets_per_phase (screens : list Screen) (viewportWidth : Z)
    (smallMode : bool) (st : ContentState) :
  let view := ModalContent screens viewportWidth smallMode st in
  transition_config view "leave" = springs.instant
  /\ transition_config view "enter" = springs.smooth
  /\ transition_config view "update" = springs.smooth
  /\ (forall phase, phase <> "leave"%string ->
        transition_config view phase = springs.smooth)
  /\ spring_config view = springs.swift.
Proof.
  simpl. unfold transitionConfig.
  split; [reflexivity | split; [reflexivity | split; [reflexivity |]]].
  split; [| reflexivity].
  intros phase Hp. destruct (String.eqb_spec phase "leave");
    [contradiction | reflexivity].
Qed.

Lemma ModalContent_direction (screens : list Screen) (viewportWidth : Z)
    (smallMode : bool) (st : ContentState) :
  let view := ModalContent screens viewportWidth smallMode st in
  translateX (transition_from view) = 5 * GU * direction (steps st)
  /\ translateX (transition_leave view) = 5 * GU * - direction (steps st).
Proof. split; reflexivity. Qed.

(** C7.  With [d] the direction of the sequencer, the entering screen starts
    at [translate3d(5 * GU * d px, 0, 0)] and the leaving screen ends at
    [translate3d(-5 * GU * d px, 0, 0)].  After a [next()] that moves,
    [d = +1]: in from the right (a positive x), out to the left; after a
    [prev()] that moves, [d = -1]: both are reversed. *)
Theorem slide_follows_direction (screens : list Screen) (viewportWidth : Z)
    (smallMode : bool) (st : ContentState) (HGU : 0 < GU) :
  let view c := ModalContent screens viewportWidth smallMode c in
  let d := direction (steps st) in
  let N := Z.of_nat (List.length screens) in
  translateX (transition_from (view st)) = 5 * GU * d
  /\ translateX (transition_leave (view st)) = - (5 * GU * d)
  /\ translateX (transition_enter (view st)) = 0
  /\ (currentStep (steps st) < N - 1 ->
      let after := view (setSteps next screens st) in
      translateX (transition_from after) = 5 * GU
      /\ translateX (transition_leave after) = - (5 * GU)
      /\ 0 < translateX (transition_from after)
      /\ translateX (transition_leave after) < 0)
  /\ (0 < currentStep (steps st) ->
      let after := view (setSteps prev screens st) in
      translateX (transition_from after) = - (5 * GU)
      /\ translateX (transition_leave after) = 5 * GU
      /\ translateX (transition_from after) < 0
      /\ 0 < translateX (transition_leave after)).
Proof.
  intros view d N. subst view d N. cbv beta.
  split; [reflexivity |].
  split; [rewrite (proj2 (ModalContent_direction _ _ _ _)); ring |].
  split; [reflexivity |].
  split.
  - intros Hlt. cbv zeta.
    rewrite !(proj1 (ModalContent_direction _ _ _ _)).
    rewrite !(proj2 (ModalContent_direction _ _ _ _)).
    cbn [steps setSteps].
    destruct (next_moves (useSteps (Z.of_nat (List.length screens)) (steps st)))
      as [-> _]; [exact Hlt |].
    lia.
  - intros Hlt. cbv zeta.
    rewrite !(proj1 (ModalContent_direction _ _ _ _)).
    rewrite !(proj2 (ModalContent_direction _ _ _ _)).
    cbn [steps setSteps].
    destruct (prev_moves (useSteps (Z.of_nat (List.length screens)) (steps st)))
      as [-> _]; [exact Hlt |].
    lia.
Qed.

(** ** The height of the container *)

(** How one event changes the pinning. *)
Lemma react_pinned (e : event) (m m' : Mounted) :
  react e m = Ok m' ->
  pinned m' = match e with
              | Fire onStart_h =>
                  if immediateAnimation (gate_of m) then pinned m else true
              | Fire (onRest_h status) =>
                  if String.eqb status "update" then false else pinned m
              | _ => pinned m
              end.
Proof.
  unfold pinned, gate_of. destruct e as [h | l]; simpl.
  - destruct h; simpl; try (intros [= <-]; reflexivity).
    + destruct (js_call _ _); simpl; intros [= <-]; reflexivity.
    + destruct (currentScreen (state m)); [| discriminate].
      destruct (handleModalClose _ _ _); simpl; intros [= <-]; reflexivity.
    + intros [= <-]. simpl.
      destruct (immediateAnimation _); reflexivity.
    + unfold onRest. destruct (String.eqb status "update");
        intros [= <-]; reflexivity.
  - intros [= <-]. reflexivity.
Qed.

(** As long as the gate says "immediately", nothing is pinned. *)
Lemma immediate_not_pinned (es : list event) :
  forall m m',
    (immediateAnimation (gate_of m) = true -> pinned m = false) ->
    reacts es m = Ok m' ->
    immediateAnimation (gate_of m') = true -> pinned m' = false.
Proof.
  induction es as [| e es IH]; simpl; intros m m' Hinv H.
  - injection H as <-. exact Hinv.
  - destruct (react e m) as [m1 | err] eqn:E; [| discriminate].
    simpl in H. apply (IH m1 m'); [| exact H].
    rewrite (react_gate _ _ _ E), (react_pinned _ _ _ E).
    destruct e as [[] | l]; simpl; try exact Hinv.
    + discriminate.
    + intros Hg. destruct (String.eqb status "update");
        [reflexivity | exact (Hinv Hg)].
Qed.

(** C5.  The container is at automatic sizing or pinned.  At [onStart],
    when the gate says "immediately", pinning is skipped and the container
    stays at automatic sizing; when it does not, the container gets the
    height that the [Spring] animates, whose target is the measured height
    and which is not immediate.  [onRest] with status "update" returns the
    container to automatic sizing, [onRest] with any other status ("enter",
    "leave") changes nothing, and no other event unpins: a pinned container
    is released exactly by an "update" rest, as an unpinned one is pinned
    exactly by an [onStart] whose gate does not say "immediately". *)
Theorem container_height_pinning (screens : list Screen) (viewportWidth : Z)
    (smallMode : bool) (st : ContentState) :
  let view c := ModalContent screens viewportWidth smallMode c in
  let started := onStart (immediateAnimation (gate st)) st in
  (transition_onStart (view st) = onStart_h
   /\ transition_onRest (view st) = onRest_h
   /\ forall m, invoke onStart_h m
                = Ok (withContent
                        (onStart (immediateAnimation (gate_of m))) m))
  /\ (immediateAnimation (gate st) = true ->
      applyStaticHeight started = applyStaticHeight st
      /\ (applyStaticHeight st = false ->
          forall h, container_height (view started) h = auto))
  /\ (forall p w es m,
        reacts es (mount p w) = Ok m ->
        immediateAnimation (gate_of m) = true -> pinned m = false)
  /\ (immediateAnimation (gate st) = false ->
      (forall h, container_height (view started) h = px h)
      /\ spring_to_height (view started) = height st
      /\ spring_immediate (view started) = false
      /\ forall measured,
           spring_to_height (view (setHeight measured started)) = Some measured)
  /\ (forall h, container_height (view (onRest "update" st)) h = auto)
  /\ (forall status, status <> "update"%string -> onRest status st = st)
  /\ onRest "enter" st = st
  /\ onRest "leave" st = st
  /\ (forall e m m',
        react e m = Ok m' -> pinned m = true ->
        e <> Fire (onRest_h "update") -> pinned m' = true)
  /\ (forall e m m',
        react e m = Ok m' -> pinned m = false -> pinned m' = true ->
        e = Fire onStart_h /\ immediateAnimation (gate_of m) = false).
Proof.
  intros view started. subst view started. cbv beta.
  split; [| split; [| split; [| split; [| split; [| split]]]]].
  - split; [reflexivity | split; [reflexivity |]]. intros m. reflexivity.
  - intros Himm. rewrite Himm. simpl. split; [reflexivity |].
    intros Hauto h. rewrite Hauto. reflexivity.
  - intros p w es m H. apply (immediate_not_pinned es (mount p w) m); [| exact H].
    reflexivity.
  - intros Himm. rewrite Himm. simpl.
    split; [reflexivity | split; [reflexivity | split; reflexivity]].
  - reflexivity.
  - intros status Hs. unfold onRest.
    destruct (String.eqb_spec status "update"); [contradiction | reflexivity].
  - split; [reflexivity | split; [reflexivity |]]. split.
    + intros e m m' H Hp He. rewrite (react_pinned _ _ _ H), Hp.
      destruct e as [[] | l]; try reflexivity.
      * destruct (immediateAnimation (gate_of m)); reflexivity.
      * destruct (String.eqb_spec status "update"); [| reflexivity].
        subst status. contradiction He. reflexivity.
    + intros e m m' H Hp Hp'. rewrite (react_pinned _ _ _ H), Hp in Hp'.
      destruct e as [[] | l]; try discriminate.
      * destruct (immediateAnimation (gate_of m)); [discriminate |].
        split; reflexivity.
      * destruct (String.eqb status "update"); discriminate.
Qed.

(** ** Screens that are not there *)

Lemma js_index_out_of_range {A : Type} (xs : list A) (i : Z) :
  i < 0 \/ Z.of_nat (List.length xs) <= i -> js_index xs i = None.
Proof.
  intros H. unfold js_index.
  destruct (Z.ltb_spec i 0); [reflexivity |].
  apply nth_error_None. lia.
Qed.

Lemma js_index_in_range {A : Type} (xs : list A) (i : Z) :
  0 <= i < Z.of_nat (List.length xs) -> exists x, js_index xs i = Some x.
Proof.
  intros H. unfold js_index.
  destruct (Z.ltb_spec i 0); [lia |].
  destruct (nth_error xs (Z.to_nat i)) as [x |] eqn:E; [exists x; reflexivity |].
  apply nth_error_None in E. lia.
Qed.

(** After the effects, [screensState] is the list the parent passed. *)
Lemma react_NewScreens_screensState (l : list Screen) (m m' : Mounted) :
  react (NewScreens l) m = Ok m' ->
  screensState (modalContent (state m')) = l
  /\ screens (props m') = l
  /\ currentStep (steps (modalContent (state m')))
     = currentStep (steps (modalContent (state m)))
  /\ currentScreen (state m')
     = getScreen l (currentStep (steps (modalContent (state m)))).
Proof.
  simpl. intros [= <-]. simpl. repeat split.
Qed.

(** Where the component does throw: a render of [MultiScreenModal] whose
    [currentScreen] is [undefined], which is what the effects leave when the
    new list does not cover the current step. *)
Lemma MultiScreenModal_undefined_currentScreen (p : Props) (viewport : Z)
    (smallMode : bool) (st : ModalState) :
  currentScreen st = None ->
  MultiScreenModal p viewport smallMode st = Throw TypeError.
Proof. intros H. unfold MultiScreenModal. rewrite H. reflexivity. Qed.

(** The slot's side of a screen that is not there: for an index [i] outside
    the bounds of the current screen list, [getScreen(i)] is [undefined] and
    the slot of [i] renders no element; when the parent passes a shorter
    list that does not cover [i], the slot of [i] renders nothing from then
    on.  (What the rest of the component does then is
    [uncovered_current_step_throws].) *)
Theorem out_of_range_slot_renders_nothing (screens : list Screen)
    (viewportWidth : Z) (smallMode : bool) (st : ContentState) (i : Z)
    (Hout : i < 0 \/ Z.of_nat (List.length (screensState st)) <= i) :
  getScreen (screensState st) i = None
  /\ us_getScreen (useScreens screens st) i = None
  /\ (forall animProps,
        renderSlot (useScreens screens st) viewportWidth smallMode i animProps
        = [])
  /\ (forall animProps,
        transition_children
          (ModalContent screens viewportWidth smallMode st) i animProps = [])
  /\ (forall (m m' : Mounted) (shorter : list Screen) animProps,
        Z.of_nat (List.length shorter) <= i ->
        react (NewScreens shorter) m = Ok m' ->
        transition_children
          (ModalContent (screens_of m') viewportWidth smallMode
             (modalContent (state m'))) i animProps = []).
Proof.
  assert (Hget : getScreen (screensState st) i = None)
    by (apply js_index_out_of_range, Hout).
  split; [exact Hget |]. split; [exact Hget |].
  assert (Hslot : forall animProps,
             renderSlot (useScreens screens st) viewportWidth smallMode i animProps
             = []).
  { intros animProps. unfold renderSlot. simpl. rewrite Hget. reflexivity. }
  split; [exact Hslot |]. split; [exact Hslot |].
  intros m m' shorter animProps Hlen H.
  destruct (react_NewScreens_screensState _ _ _ H) as [Hs _].
  simpl. unfold renderSlot. simpl. rewrite Hs.
  unfold getScreen. rewrite js_index_out_of_range by (right; exact Hlen).
  reflexivity.
Qed.

(** While the step is covered, the component renders. *)
Lemma covered_component_renders (m : Mounted) (viewport : Z) (smallMode : bool) :
  step_covered m -> succeeds (render viewport smallMode m) = true.
Proof.
  intros (Hcount & Hrange & Hcs). unfold render, MultiScreenModal.
  rewrite Hcs. unfold getScreen.
  destruct (js_index_in_range (screens (props m)) (currentStep (steps_of m)))
    as [screen ->]; [| reflexivity].
  unfold step_in_range in Hrange. lia.
Qed.

(** The other side of that scenario: when the index the new list does not
    cover is the current step, the effects hand [undefined] to
    [updateCurrentScreen], and the next render of [MultiScreenModal]
    throws. *)
Lemma uncovered_current_step_throws (m m' : Mounted) (shorter : list Screen)
    (viewport : Z) (smallMode : bool) :
  Z.of_nat (List.length shorter) <= currentStep (steps (modalContent (state m))) ->
  react (NewScreens shorter) m = Ok m' ->
  render viewport smallMode m' = Throw TypeError.
Proof.
  intros Hlen H.
  destruct (react_NewScreens_screensState _ _ _ H) as (_ & _ & _ & Hcs).
  unfold render. apply MultiScreenModal_undefined_currentScreen.
  rewrite Hcs. apply js_index_out_of_range. right. exact Hlen.
Qed.

(** * Further properties of the component *)

(** ** Updates, effects and settled states *)

Lemma react_update (e : event) (m : Mounted) :
  react e m = (m1 <- update e m ;; Ok (runEffects m1)).
Proof. destruct e; reflexivity. Qed.

Lemma react_settled (e : event) (m m' : Mounted) :
  react e m = Ok m' -> settled m'.
Proof.
  rewrite react_update. destruct (update e m) as [m1 | err]; [| discriminate].
  intros [= <-]. exists m1. reflexivity.
Qed.

Lemma mount_settled (p : Props) (w : World) : settled (mount p w).
Proof. eexists. reflexivity. Qed.

Lemma reacts_settled (es : list event) :
  forall m m', reacts es m = Ok m' -> settled m -> settled m'.
Proof.
  induction es as [| e es IH]; simpl; intros m m' H Hm.
  - injection H as <-. exact Hm.
  - destruct (react e m) as [m1 | err] eqn:E; [| discriminate].
    simpl in H. apply (IH m1 m' H). exact (react_settled e m m1 E).
Qed.

(** An update writes neither [currentScreen] nor [screensState]: only the
    effects do. *)
Lemma update_keeps_screens (e : event) (m m1 : Mounted) :
  update e m = Ok m1 ->
  currentScreen (state m1) = currentScreen (state m)
  /\ screensState (modalContent (state m1))
     = screensState (modalContent (state m)).
Proof.
  destruct e as [h | l]; simpl.
  - destruct h; simpl; try (intros [= <-]; split; reflexivity).
    + destruct (js_call _ _); simpl; intros [= <-]; split; reflexivity.
    + destruct (currentScreen (state m)) eqn:Hcs; [| discriminate].
      destruct (handleModalClose _ _ _); simpl; intros [= <-].
      split; [exact Hcs | reflexivity].
    + unfold onRest. destruct (String.eqb status "update");
        intros [= <-]; split; reflexivity.
  - intros [= <-]. split; reflexivity.
Qed.

Lemma runEffects_renders_as_effects (m : Mounted) (viewport : Z)
    (smallMode : bool) :
  render viewport smallMode (runEffects m)
  = render viewport smallMode
      (onScreenChangeEffect (setScreensStateEffect m)).
Proof.
  unfold render, MultiScreenModal.
  change (currentScreen
            (state (onScreenChangeEffect (setScreensStateEffect m))))
    with (currentScreen (state (runEffects m))).
  destruct (currentScreen (state (runEffects m))); reflexivity.
Qed.

(** X1.  For one event, React commits the render of three states: after
    the update, after [useScreens]'s effect [setScreensState(screens)],
    after [ModalContent]'s effect [onScreenChange(currentScreen)].  In the
    first, [currentScreen] and [screensState] are still those from before
    the event.  In the last, [screensState] is the [screens] prop and
    [currentScreen] is that list at the sequencer's step ([undefined] when
    the list does not reach it), and neither effect would change anything
    any more: the effects settle in one pass.  After a new list, every
    [getScreen(i)] then reads that list, whatever the former one held. *)
Theorem effects_settle_and_mirror (e : event) (m m1 : Mounted)
    (Hupdate : update e m = Ok m1) :
  let m2 := setScreensStateEffect m1 in
  let m3 := onScreenChangeEffect m2 in
  commits e m = Ok [m1; m2; m3]
  /\ react e m = Ok (runEffects m1)
  /\ (forall viewport smallMode,
        render viewport smallMode (runEffects m1)
        = render viewport smallMode m3)
  /\ (currentScreen (state m1) = currentScreen (state m)
      /\ screensState (modalContent (state m1))
         = screensState (modalContent (state m)))
  /\ (screensState (modalContent (state m3)) = screens (props m3)
      /\ currentScreen (state m3)
         = js_index (screens (props m3)) (currentStep (steps_of m3))
      /\ currentScreen (state (runEffects m1)) = currentScreen (state m3)
      /\ screensState (modalContent (state (runEffects m1)))
         = screensState (modalContent (state m3)))
  /\ (setScreensStateEffect m3 = m3 /\ onScreenChangeEffect m3 = m3)
  /\ (forall l i,
        e = NewScreens l ->
        screens (props m3) = l
        /\ us_getScreen (useScreens l (modalContent (state m3))) i
           = js_index l i).
Proof.
  intros m2 m3. subst m2 m3.
  split; [unfold commits; rewrite Hupdate; reflexivity |].
  split; [rewrite react_update, Hupdate; reflexivity |].
  split; [intros; apply runEffects_renders_as_effects |].
  split; [exact (update_keeps_screens e m m1 Hupdate) |].
  split; [split; [reflexivity | split; [reflexivity | split; reflexivity]] |].
  split; [split; reflexivity |].
  intros l i ->. simpl in Hupdate. injection Hupdate as <-.
  split; reflexivity.
Qed.

(** ** Widths *)

Lemma Z_min_le_l (a b : Z) : Z.min a b <= a.
Proof. lia. Qed.

Lemma settled_current_slot (m' : Mounted) :
  settled m' ->
  let api := useScreens (screens (props m')) (modalContent (state m')) in
  us_getScreen api (us_step api) = currentScreen (state m').
Proof. intros [m0 ->]. reflexivity. Qed.

(** X2.  The [Modal]'s width and close button follow the current step only
    through the [onScreenChange] effect.  The render committed right after
    an event's update, before the effects, shows the [Modal] with the width
    and the close button it had before the event, whatever the step now is.
    Once the effects have run, if the component renders, the slot of the
    current step is exactly as wide as the [Modal]. *)
Theorem modal_follows_onScreenChange (viewport : Z) (smallMode : bool) :
  (forall e m m1 v,
      update e m = Ok m1 ->
      render viewport smallMode m = Ok v ->
      exists v1,
        render viewport smallMode m1 = Ok v1
        /\ modal_width v1 = modal_width v
        /\ modal_closeButton v1 = modal_closeButton v)
  /\ (forall m' v,
        settled m' ->
        render viewport smallMode m' = Ok v ->
        forall animProps,
          map slot_width
            (transition_children (modal_children v)
               (transition_items (modal_children v)) animProps)
          = [modal_width v]).
Proof.
  split.
  - intros e m m1 v Hupdate.
    destruct (update_keeps_screens e m m1 Hupdate) as [Hcs _].
    unfold render, MultiScreenModal. rewrite Hcs.
    destruct (currentScreen (state m)) as [cs |]; [| discriminate].
    intros [= <-]. eexists. split; [reflexivity |]. split; reflexivity.
  - intros m' v Hsettled Hview animProps. revert Hview.
    unfold render, MultiScreenModal.
    destruct (currentScreen (state m')) as [cs |] eqn:Hcs; [| discriminate].
    intros [= <-].
    cbn [modal_children modal_width].
    unfold ModalContent.
    cbn [transition_children transition_items].
    unfold renderSlot.
    rewrite (settled_current_slot m' Hsettled), Hcs. reflexivity.
Qed.

(** X3.  A render never gives the [Modal] or a slot more than the viewport's
    width less the gutter of [4 * GU], and gives the [Modal] the current
    screen's own width (or the default) whenever that fits. *)
Theorem rendered_widths_fit_viewport (m : Mounted) (viewport : Z)
    (smallMode : bool) (v : ModalView)
    (Hview : render viewport smallMode m = Ok v) :
  modal_width v <= viewport - 4 * GU
  /\ (forall step animProps slot,
        In slot (transition_children (modal_children v) step animProps) ->
        slot_width slot <= viewport - 4 * GU)
  /\ (forall cs,
        currentScreen (state m) = Some cs ->
        modalWidth (width cs) <= viewport - 4 * GU ->
        modal_width v = modalWidth (width cs))
  /\ (forall step animProps slot stepScreen,
        In slot (transition_children (modal_children v) step animProps) ->
        getScreen (screensState (modalContent (state m))) step = Some stepScreen ->
        modalWidth (width stepScreen) <= viewport - 4 * GU ->
        slot_width slot = modalWidth (width stepScreen)).
Proof.
  revert Hview. unfold render, MultiScreenModal.
  destruct (currentScreen (state m)) as [cs |] eqn:Hcs; [| discriminate].
  intros [= <-]. cbn [modal_width modal_children].
  split; [apply Z_min_le_l |].
  split; [| split].
  - intros step animProps slot. unfold ModalContent.
    cbn [transition_children]. unfold renderSlot.
    destruct (us_getScreen _ step) as [stepScreen |]; [| intros []].
    intros [<- | []]. cbn [slot_width]. apply Z_min_le_l.
  - intros cs' [= <-] Hfits. apply Z.min_r. exact Hfits.
  - intros step animProps slot stepScreen. unfold ModalContent.
    cbn [transition_children]. unfold renderSlot.
    cbn [us_getScreen useScreens]. intros Hin Hget. rewrite Hget in Hin.
    destruct Hin as [<- | []]. cbn [slot_width]. intros Hfits.
    apply Z.min_r. exact Hfits.
Qed.

(** ** Closing *)

(** X4.  The [Modal] shows its close button exactly when its close request
    reaches [onClose]: with the button, a request applies [onClose] once;
    without it, a request changes nothing. *)
Theorem close_button_matches_guard (m : Mounted) (viewport : Z)
    (smallMode : bool) (v : ModalView) (f : World -> World)
    (Hview : render viewport smallMode m = Ok v)
    (HonClose : onClose (props m) = Some f) :
  (modal_closeButton v = true ->
     invoke (modal_onClose v) m = Ok (withWorld (f (world m)) m))
  /\ (modal_closeButton v = false -> invoke (modal_onClose v) m = Ok m).
Proof.
  revert Hview. unfold render, MultiScreenModal.
  destruct (currentScreen (state m)) as [cs |] eqn:Hcs; [| discriminate].
  intros [= <-]. cbn [modal_closeButton modal_onClose].
  unfold invoke. rewrite Hcs. unfold handleModalClose.
  cbn [onClose defaultProps]. rewrite HonClose.
  split; intros ->; simpl; [reflexivity |].
  apply f_equal, withWorld_same.
Qed.

(** X5.  A close request is the only event that reaches [onClose]: every
    other event leaves the world as it is.  A close request applies the
    supplied [onClose] at most once and leaves the step, the direction, the
    gate, the pinning and the measured height as they are; an event that is
    a call of a closure leaves the props as they are. *)
Theorem only_close_requests_reach_onClose (e : event) (m m' : Mounted)
    (Hreact : react e m = Ok m') :
  (is_close e = false -> world m' = world m)
  /\ (is_close e = true ->
      (world m' = world m
       \/ exists f, onClose (props m) = Some f /\ world m' = f (world m))
      /\ currentStep (steps_of m') = currentStep (steps_of m)
      /\ direction (steps_of m') = direction (steps_of m)
      /\ gate_of m' = gate_of m
      /\ pinned m' = pinned m
      /\ height (modalContent (state m')) = height (modalContent (state m)))
  /\ (same_screens e = true -> props m' = props m).
Proof.
  split; [| split].
  - destruct e as [h | l]; simpl in Hreact.
    + destruct h; simpl in Hreact; try discriminate;
        injection Hreact as <-; reflexivity.
    + injection Hreact as <-. reflexivity.
  - destruct e as [h | l]; [| discriminate].
    destruct h; try discriminate; intros _; simpl in Hreact.
    + destruct (onClose (props m)) as [f |] eqn:Hf; simpl in Hreact;
        injection Hreact as <-.
      * split; [right; exists f; split; reflexivity |].
        repeat split.
      * split; [left; reflexivity |]. repeat split.
    + destruct (currentScreen (state m)) as [cs |]; [| discriminate].
      unfold handleModalClose in Hreact.
      destruct (js_not (disableClose cs)).
      * destruct (onClose (props m)) as [f |] eqn:Hf; simpl in Hreact;
          injection Hreact as <-.
        -- split; [right; exists f; split; reflexivity |]. repeat split.
        -- split; [left; reflexivity |]. repeat split.
      * simpl in Hreact. injection Hreact as <-.
        split; [left; reflexivity |]. repeat split.
  - intros He. exact (react_same_screens e m m' He Hreact).
Qed.

(** X6.  The closure that [renderScreen] passes as [closeModal], the
    [onClose] prop, ends normally in every state of the component, a missing
    current screen included: it applies the supplied [onClose] once, or
    changes nothing when none was supplied. *)
Theorem closeModal_always_completes (m : Mounted) :
  (forall nextH prevH smallMode screen,
      body (renderScreen nextH prevH smallMode screen)
      = content screen {| prevScreen := prevH; nextScreen := nextH;
                          closeModal := prop_onClose |})
  /\ (exists w',
        invoke prop_onClose m = Ok (withWorld w' m)
        /\ (onClose (props m) = None -> w' = world m)
        /\ (forall f, onClose (props m) = Some f -> w' = f (world m))).
Proof.
  split; [reflexivity |].
  unfold invoke. cbn [onClose defaultProps].
    destruct (onClose (props m)) as [f |]; simpl.
    + exists (f (world m)). split; [reflexivity |].
      split; [discriminate | intros g [= <-]; reflexivity].
    + exists (world m). split; [reflexivity |].
      split; [reflexivity | discriminate].
Qed.

(** ** Slots *)

Lemma js_index_covers {A : Type} (xs : list A) (i : Z) :
  js_index xs i = if covers xs i then nth_error xs (Z.to_nat i) else None.
Proof.
  unfold js_index, covers.
  destruct (Z.ltb_spec i 0); destruct (Z.leb_spec 0 i); try lia;
    [reflexivity |].
  destruct (Z.ltb_spec i (Z.of_nat (List.length xs))); [reflexivity |].
  apply nth_error_None. lia.
Qed.

Lemma covers_nth_error {A : Type} (xs : list A) (i : Z) :
  covers xs i = true -> exists x, nth_error xs (Z.to_nat i) = Some x.
Proof.
  unfold covers. intros H. apply andb_prop in H. destruct H as [H0 H1].
  apply Z.leb_le in H0. apply Z.ltb_lt in H1.
  destruct (nth_error xs (Z.to_nat i)) as [x |] eqn:E; [exists x; reflexivity |].
  apply nth_error_None in E. lia.
Qed.

(** X7.  The slot of a step renders one element when the step is an index
    of [screensState] and none otherwise, whatever the [screens] prop of
    the render is; the element shows that screen: its title, its content
    applied to the navigation closures, the animated style it was given. *)
Theorem slot_shows_the_screen_of_its_step (screens : list Screen)
    (viewportWidth : Z) (smallMode : bool) (st : ContentState) (i : Z)
    (animProps : style) :
  let slot := renderSlot (useScreens screens st) viewportWidth smallMode i
                animProps in
  List.length slot = (if covers (screensState st) i then 1 else 0)%nat
  /\ (covers (screensState st) i = true ->
      exists screen,
        nth_error (screensState st) (Z.to_nat i) = Some screen
        /\ map (fun d => h1_text (slot_children d)) slot = [title screen]
        /\ map (fun d => body (slot_children d)) slot
           = [content screen {| prevScreen := steps_prev;
                                nextScreen := steps_next;
                                closeModal := prop_onClose |}]
        /\ map slot_animProps slot = [animProps]).
Proof.
  intros slot. subst slot. unfold renderSlot.
  cbn [us_getScreen us_next us_prev useScreens]. unfold getScreen.
  rewrite js_index_covers.
  destruct (covers (screensState st) i) eqn:Hc.
  - destruct (covers_nth_error _ _ Hc) as [screen Hs]. rewrite Hs.
    split; [reflexivity |]. intros _. exists screen.
    split; [reflexivity |]. split; [reflexivity |].
    split; reflexivity.
  - split; [reflexivity | discriminate].
Qed.

(** ** The measured height *)

Lemma react_height (e : event) (m m' : Mounted) :
  react e m = Ok m' ->
  height (modalContent (state m'))
  = measured (height (modalContent (state m))) e.
Proof.
  destruct e as [h | l]; simpl.
  - destruct h; simpl; try (intros [= <-]; reflexivity).
    + destruct (js_call _ _); simpl; intros [= <-]; reflexivity.
    + destruct (currentScreen (state m)); [| discriminate].
      destruct (handleModalClose _ _ _); simpl; intros [= <-]; reflexivity.
    + unfold onRest. destruct (String.eqb status "update");
        intros [= <-]; reflexivity.
  - intros [= <-]. reflexivity.
Qed.

Lemma reacts_height (es : list event) :
  forall m m', reacts es m = Ok m' ->
    height (modalContent (state m'))
    = fold_left measured es (height (modalContent (state m))).
Proof.
  induction es as [| e es IH]; simpl; intros m m' H.
  - injection H as <-. reflexivity.
  - destruct (react e m) as [m1 | err] eqn:E; [| discriminate].
    simpl in H. rewrite (IH _ _ H), (react_height _ _ _ E). reflexivity.
Qed.

(** X8.  The target of the height [Spring] is the height that a slot's
    [ref] measured last, and nothing ([null]) until a first measure: no
    other event, navigation, close, start or rest of a transition, or a new
    list of screens, changes it. *)
Theorem spring_targets_last_measure (p : Props) (w : World)
    (es : list event) (m : Mounted)
    (Hreacts : reacts es (mount p w) = Ok m) :
  height (modalContent (state m)) = last_measure es
  /\ (forall viewportWidth smallMode,
        spring_to_height
          (ModalContent (screens_of m) viewportWidth smallMode
             (modalContent (state m)))
        = last_measure es)
  /\ (forall e m', react e m = Ok m' ->
        (forall clientHeight, e <> Fire (ref_h clientHeight)) ->
        height (modalContent (state m')) = last_measure es)
  /\ (forall clientHeight m',
        react (Fire (ref_h clientHeight)) m = Ok m' ->
        height (modalContent (state m')) = Some clientHeight).
Proof.
  assert (Hh : height (modalContent (state m)) = last_measure es)
    by (rewrite (reacts_height es _ _ Hreacts); reflexivity).
  split; [exact Hh |]. split; [intros; exact Hh |]. split.
  - intros e m' H Hne. rewrite (react_height _ _ _ H), <- Hh.
    destruct e as [[] | l]; try reflexivity.
    contradiction (Hne clientHeight). reflexivity.
  - intros clientHeight m' H. rewrite (react_height _ _ _ H). reflexivity.
Qed.

(** ** The first render *)

(** X9.  The first render succeeds exactly when the list of screens is not
    empty, and then the [Modal] is set up from [screens[0]]: its close
    button, its width, the [visible] prop passed through, the step 0 as the
    item of the transition.  With an empty list, at mount or passed later,
    the render throws. *)
Theorem first_render_needs_a_screen (p : Props) (w : World) (viewport : Z)
    (smallMode : bool) :
  (screens p = [] ->
     render viewport smallMode (mount p w) = Throw TypeError)
  /\ (forall first rest,
        screens p = first :: rest ->
        exists v,
          render viewport smallMode (mount p w) = Ok v
          /\ modal_closeButton v = js_not (disableClose first)
          /\ modal_width v = Z.min (viewport - 4 * GU) (modalWidth (width first))
          /\ modal_visible v = visible p
          /\ transition_items (modal_children v) = 0
          /\ forall animProps,
               map (fun d => h1_text (slot_children d))
                 (transition_children (modal_children v) 0 animProps)
               = [title first])
  /\ (forall m m',
        react (NewScreens []) m = Ok m' ->
        render viewport smallMode m' = Throw TypeError).
Proof.
  split; [| split].
  - intros Hempty. unfold render, MultiScreenModal, mount, runEffects.
    cbn [state props defaultProps screens updateCurrentScreen currentScreen
         us_currentScreen useScreens screensState].
    rewrite Hempty. unfold getScreen, js_index.
    destruct (_ <? 0); [reflexivity |].
    destruct (Z.to_nat _); reflexivity.
  - intros first rest Hscreens.
    unfold render, MultiScreenModal, mount, runEffects, ModalContent, renderSlot.
    cbn [state props defaultProps screens updateCurrentScreen currentScreen
         us_currentScreen useScreens screensState modalContent visible
         us_getScreen us_step steps useSteps currentStep initialSequencer].
    rewrite Hscreens. eexists. split; [reflexivity |].
    split; [reflexivity |]. split; [reflexivity |].
    split; [reflexivity |]. split; reflexivity.
  - intros m m' H. simpl in H. injection H as <-.
    unfold render, MultiScreenModal, runEffects.
    cbn [state props defaultProps screens updateCurrentScreen currentScreen
         us_currentScreen useScreens screensState].
    unfold getScreen, js_index.
    destruct (_ <? 0); [reflexivity |].
    destruct (Z.to_nat _); reflexivity.
Qed.

(** ** The small mode of the viewport *)

(** X10.  The viewport's small mode changes the padding of a slot, [3 * GU]
    instead of [5 * GU], and the text style of the title, "title4" instead
    of "title3", and nothing else of what [ModalContent] renders: the same
    springs, transition styles and callbacks, and slots of the same width,
    title and content. *)
Theorem small_mode_changes_padding_and_title_only (screens : list Screen)
    (viewportWidth : Z) (st : ContentState) :
  let small := ModalContent screens viewportWidth true st in
  let large := ModalContent screens viewportWidth false st in
  spring_config small = spring_config large
  /\ spring_to_height small = spring_to_height large
  /\ spring_immediate small = spring_immediate large
  /\ (forall h, container_height small h = container_height large h)
  /\ transition_items small = transition_items large
  /\ transition_from small = transition_from large
  /\ transition_enter small = transition_enter large
  /\ transition_leave small = transition_leave large
  /\ (forall step animProps,
        let s := transition_children small step animProps in
        let l := transition_children large step animProps in
        map slot_width s = map slot_width l
        /\ map (fun d => h1_text (slot_children d)) s
           = map (fun d => h1_text (slot_children d)) l
        /\ map (fun d => body (slot_children d)) s
           = map (fun d => body (slot_children d)) l
        /\ map slot_padding s = map (fun _ => 3 * GU) l
        /\ map slot_padding l = map (fun _ => 5 * GU) s
        /\ map (fun d => h1_textStyle (slot_children d)) s
           = map (fun _ => "title4"%string) l
        /\ map (fun d => h1_textStyle (slot_children d)) l
           = map (fun _ => "title3"%string) s).
Proof.
  intros small large. subst small large.
  repeat (split; [reflexivity |]).
  intros step animProps. cbv zeta. unfold ModalContent.
  cbn [transition_children]. unfold renderSlot.
  destruct (us_getScreen _ step); repeat split.
Qed.

(** ** When the component renders *)

(** X11.  A render throws exactly when [currentScreen] is [undefined], and
    only the [onScreenChange] effect can make it so: the renders committed
    after an event's update and after the [setScreensState] effect succeed
    exactly when the render before them did.  Once the effects have run, the
    render succeeds exactly when the current step is an index of the
    [screens] prop, and throws otherwise; when it succeeds, the [Modal]'s
    close button and width are those of the screen at that step. *)
Theorem render_throws_iff_step_uncovered (viewport : Z) (smallMode : bool) :
  (forall m,
      succeeds (render viewport smallMode m)
      = match currentScreen (state m) with Some _ => true | None => false end)
  /\ (forall e m m1,
        update e m = Ok m1 ->
        succeeds (render viewport smallMode m1)
        = succeeds (render viewport smallMode m)
        /\ succeeds (render viewport smallMode (setScreensStateEffect m1))
           = succeeds (render viewport smallMode m))
  /\ (forall m',
        settled m' ->
        succeeds (render viewport smallMode m')
        = covers (screens (props m')) (currentStep (steps_of m'))
        /\ (covers (screens (props m')) (currentStep (steps_of m')) = false ->
            render viewport smallMode m' = Throw TypeError)
        /\ (forall v,
              render viewport smallMode m' = Ok v ->
              exists cs,
                nth_error (screens (props m'))
                  (Z.to_nat (currentStep (steps_of m'))) = Some cs
                /\ modal_closeButton v = js_not (disableClose cs)
                /\ modal_width v
                   = Z.min (viewport - 4 * GU) (modalWidth (width cs)))).
Proof.
  assert (Hthrow : forall m,
             succeeds (render viewport smallMode m)
             = match currentScreen (state m) with
               | Some _ => true
               | None => false
               end).
  { intros m. unfold render, MultiScreenModal.
    destruct (currentScreen (state m)); reflexivity. }
  split; [exact Hthrow |]. split.
  - intros e m m1 Hupdate.
    destruct (update_keeps_screens e m m1 Hupdate) as [Hcs _].
    rewrite !Hthrow.
    change (currentScreen (state (setScreensStateEffect m1)))
      with (currentScreen (state m1)).
    rewrite Hcs. split; reflexivity.
  - intros m' [m0 E].
    assert (Hcs : currentScreen (state m')
                  = js_index (screens (props m')) (currentStep (steps_of m')))
      by (rewrite E; reflexivity).
    rewrite js_index_covers in Hcs.
    unfold render, MultiScreenModal. rewrite Hcs.
    destruct (covers (screens (props m')) (currentStep (steps_of m'))) eqn:Hc.
    + destruct (covers_nth_error _ _ Hc) as [cs Hn]. rewrite Hn.
      split; [reflexivity |]. split; [discriminate |].
      intros v [= <-]. exists cs.
      split; [reflexivity |]. split; reflexivity.
    + split; [reflexivity |]. split; [reflexivity | discriminate].
Qed.

End Component.

(** * The properties at concrete inputs *)

(** A sequencer of three steps, at its last and at its first step. *)
Lemma sequencer_step_stays_in_range_witness :
  step_in_range {| stepCount := 3; currentStep := 2; direction := 1 |}
  /\ next {| stepCount := 3; currentStep := 2; direction := 1 |}
     = {| stepCount := 3; currentStep := 2; direction := 1 |}
  /\ prev {| stepCount := 3; currentStep := 0; direction := -1 |}
     = {| stepCount := 3; currentStep := 0; direction := -1 |}
  /\ currentStep (next (Nat.iter 2 next (initialSequencer 3))) = 2
  /\ exists m,
       reacts nat unit
         [Fire unit steps_next; Fire unit steps_next; Fire unit steps_next]
         (mount nat unit
            {| visible := true;
               screens := closeGuardScreens unit (fun _ => tt) (fun _ => tt);
               onClose := None |} 0%nat) = Ok m
       /\ 0 <= currentStep (steps_of nat unit m) <= 1.
Proof.
  assert (H2 : step_in_range {| stepCount := 3; currentStep := 2; direction := 1 |})
    by (unfold step_in_range; simpl; lia).
  assert (H0 : step_in_range {| stepCount := 3; currentStep := 0; direction := -1 |})
    by (unfold step_in_range; simpl; lia).
  split; [exact H2 |].
  split; [| split; [| split]].
  - destruct (sequencer_step_stays_in_range nat unit _ H2)
      as (_ & _ & _ & Hlast & _).
    apply Hlast. reflexivity.
  - destruct (sequencer_step_stays_in_range nat unit _ H0)
      as (_ & _ & _ & _ & Hfirst & _).
    apply Hfirst. reflexivity.
  - destruct (sequencer_step_stays_in_range nat unit _ H2)
      as (_ & _ & _ & _ & _ & (_ & Htop) & _).
    exact Htop.
  - destruct (sequencer_step_stays_in_range nat unit _ H2)
      as (_ & _ & _ & _ & _ & _ & Hmounted).
    eexists. split; [reflexivity |].
    refine (Hmounted
              {| visible := true;
                 screens := closeGuardScreens unit (fun _ => tt) (fun _ => tt);
                 onClose := None |} 0%nat
              [Fire unit steps_next; Fire unit steps_next; Fire unit steps_next]
              _ _ eq_refl eq_refl).
    discriminate.
Defined.

(** Moving calls in the middle of three steps; clamped calls in a sequencer
    of one step and at step 0 after a [prev()]. *)
Lemma direction_follows_navigation_witness :
  direction (next {| stepCount := 3; currentStep := 1; direction := -1 |}) = 1
  /\ direction (prev {| stepCount := 3; currentStep := 1; direction := 1 |}) = -1
  /\ direction (next {| stepCount := 1; currentStep := 0; direction := 0 |}) = 0
  /\ direction (prev {| stepCount := 3; currentStep := 0; direction := -1 |}) = -1.
Proof.
  split; [| split; [| split]].
  - apply (direction_follows_navigation
             {| stepCount := 3; currentStep := 1; direction := -1 |}).
    simpl. lia.
  - apply (direction_follows_navigation
             {| stepCount := 3; currentStep := 1; direction := 1 |}).
    simpl. lia.
  - apply (proj1 (proj2 (proj2 (direction_follows_navigation
             {| stepCount := 1; currentStep := 0; direction := 0 |})))).
    reflexivity.
  - apply (proj2 (proj2 (proj2 (direction_follows_navigation
             {| stepCount := 3; currentStep := 0; direction := -1 |})))).
    reflexivity.
Defined.

(** Two queries, a notification, a query, a notification, a query; and a
    component with no screens after its first [onStart]. *)
Lemma gate_flag_is_one_way_witness :
  quiet [Query; Query] = true
  /\ run_gate initialGate ([Query; Query] ++ Notify :: [Query; Notify; Query])
     = [true; true; false; false]
  /\ exists m,
       reacts nat unit [Fire unit steps_next; Fire unit onStart_h]
         (mount nat unit
            {| visible := true; screens := []; onClose := None |} 0%nat)
       = Ok m
       /\ immediateAnimation (gate_of nat unit m) = false.
Proof.
  split; [reflexivity |].
  destruct (gate_flag_is_one_way nat unit [Query; Query] eq_refl)
    as (_ & Hafter & _ & Hcomponent).
  split.
  - exact (Hafter [Query; Notify; Query]).
  - eexists. split; [reflexivity |].
    exact (Hcomponent {| visible := true; screens := []; onClose := None |}
             0%nat [Fire unit steps_next; Fire unit onStart_h] _ eq_refl).
Defined.


(** At screen A, whose [disableClose] is true, [closeModal] counts one call
    of [onClose] where the [Modal]'s close request counts none. *)
Lemma closeModal_bypasses_the_guard_witness :
  world_after nat unit
    (invoke nat unit prop_onClose
       (mount nat unit
          {| visible := true;
             screens := closeGuardScreens unit (fun _ => tt) (fun _ => tt);
             onClose := Some S |} 0%nat)) = Ok 1%nat
  /\ world_after nat unit
       (invoke nat unit handleModalClose_h
          (mount nat unit
             {| visible := true;
                screens := closeGuardScreens unit (fun _ => tt) (fun _ => tt);
                onClose := Some S |} 0%nat)) = Ok 0%nat.
Proof.
  destruct (closeModal_bypasses_the_guard 8 nat unit
              (mount nat unit
                 {| visible := true;
                    screens := closeGuardScreens unit (fun _ => tt) (fun _ => tt);
                    onClose := Some S |} 0%nat)
              {| title := "A"; content := fun _ => tt;
                 disableClose := Some true; width := None |}
              S eq_refl eq_refl eq_refl)
    as (_ & _ & Hcontent & Hmodal).
  rewrite Hcontent, Hmodal. split; reflexivity.
Defined.

(** The width-clamp scenario with [GU = 8]: a screen 500 wide in viewports
    of 300 and 1000, and a screen with no width, which gets [80 * GU = 640]
    clamped to 300. *)
Lemma rendered_width_is_clamped_witness :
  map (slot_width unit)
    (renderSlot 8 unit
       (useScreens unit []
          {| steps := initialSequencer 1;
             screensState := [ {| title := "A"; content := fun _ => tt;
                                  disableClose := None; width := Some 500 |} ];
             applyStaticHeight := false; height := None; gate := initialGate |})
       300 false 0 {| opacity := 1; translateX := 0; position_absolute := false |})
  = [300]
  /\ map (slot_width unit)
       (renderSlot 8 unit
          (useScreens unit []
             {| steps := initialSequencer 1;
                screensState := [ {| title := "A"; content := fun _ => tt;
                                     disableClose := None; width := None |} ];
                applyStaticHeight := false; height := None; gate := initialGate |})
          300 false 0 {| opacity := 1; translateX := 0; position_absolute := false |})
     = [300]
  /\ map (slot_width unit)
       (renderSlot 8 unit
          (useScreens unit []
             {| steps := initialSequencer 1;
                screensState := [ {| title := "A"; content := fun _ => tt;
                                     disableClose := None; width := Some 500 |} ];
                applyStaticHeight := false; height := None; gate := initialGate |})
          1000 false 0 {| opacity := 1; translateX := 0; position_absolute := false |})
     = [500]
  /\ exists v,
       MultiScreenModal 8 nat unit
         {| visible := true; screens := []; onClose := None |} 1032 false
         {| currentScreen := Some {| title := "A"; content := fun _ => tt;
                                     disableClose := None; width := Some 500 |};
            modalContent :=
              {| steps := initialSequencer 1;
                 screensState := [];
                 applyStaticHeight := false; height := None;
                 gate := initialGate |} |} = Ok v
       /\ modal_width unit v = 500.
Proof.
  split; [| split; [| split]].
  - destruct (rendered_width_is_clamped 8 nat unit 300
                {| title := "A"; content := fun _ => tt;
                   disableClose := None; width := Some 500 |}
                []
                {| steps := initialSequencer 1;
                   screensState := [ {| title := "A"; content := fun _ => tt;
                                        disableClose := None; width := Some 500 |} ];
                   applyStaticHeight := false; height := None;
                   gate := initialGate |}
                false 0
                {| opacity := 1; translateX := 0; position_absolute := false |}
                eq_refl)
      as (_ & _ & _ & Hscenario).
    exact (proj1 (Hscenario eq_refl)).
  - destruct (rendered_width_is_clamped 8 nat unit 300
                {| title := "A"; content := fun _ => tt;
                   disableClose := None; width := None |}
                []
                {| steps := initialSequencer 1;
                   screensState := [ {| title := "A"; content := fun _ => tt;
                                        disableClose := None; width := None |} ];
                   applyStaticHeight := false; height := None;
                   gate := initialGate |}
                false 0
                {| opacity := 1; translateX := 0; position_absolute := false |}
                eq_refl)
      as (_ & Hunset & _).
    rewrite (Hunset eq_refl). reflexivity.
  - destruct (rendered_width_is_clamped 8 nat unit 1000
                {| title := "A"; content := fun _ => tt;
                   disableClose := None; width := Some 500 |}
                []
                {| steps := initialSequencer 1;
                   screensState := [ {| title := "A"; content := fun _ => tt;
                                        disableClose := None; width := Some 500 |} ];
                   applyStaticHeight := false; height := None;
                   gate := initialGate |}
                false 0
                {| opacity := 1; translateX := 0; position_absolute := false |}
                eq_refl)
      as (Hset & _).
    assert (H500 : (500 <> 0)%Z) by lia.
    rewrite (Hset 500 eq_refl H500). reflexivity.
  - destruct (rendered_width_is_clamped 8 nat unit 1000
                {| title := "A"; content := fun _ => tt;
                   disableClose := None; width := Some 500 |}
                []
                {| steps := initialSequencer 1;
                   screensState := [ {| title := "A"; content := fun _ => tt;
                                        disableClose := None; width := Some 500 |} ];
                   applyStaticHeight := false; height := None;
                   gate := initialGate |}
                false 0
                {| opacity := 1; translateX := 0; position_absolute := false |}
                eq_refl)
      as (_ & _ & Hmodal & _).
    destruct (Hmodal {| visible := true; screens := []; onClose := None |} 1032
                {| currentScreen := Some {| title := "A"; content := fun _ => tt;
                                            disableClose := None; width := Some 500 |};
                   modalContent :=
                     {| steps := initialSequencer 1;
                        screensState := [];
                        applyStaticHeight := false; height := None;
                        gate := initialGate |} |}
                eq_refl eq_refl) as (v & Hv & Hw & _).
    exists v. split; [exact Hv |].
    assert (H500 : (500 <> 0)%Z) by lia.
    rewrite (Hw 500 eq_refl H500). reflexivity.
Defined.

(** The presets of a freshly mounted content, for the phases "enter" and
    "leave". *)
Lemma easing_presets_per_phase_witness :
  transitionConfig "enter" = springs.smooth
  /\ transitionConfig "leave" = springs.instant.
Proof.
  destruct (easing_presets_per_phase 8 unit [] 300 false
              {| steps := initialSequencer 0; screensState := [];
                 applyStaticHeight := false; height := None;
                 gate := initialGate |})
    as (Hleave & _ & _ & Hother & _).
  split.
  - apply (Hother "enter"%string). discriminate.
  - exact Hleave.
Defined.

(** With [GU = 8] and two screens: 40 px after [next()] from step 0, -40 px
    after [prev()] from step 1. *)
Lemma slide_follows_direction_witness :
  translateX
    (transition_from unit
       (ModalContent 8 unit
          (closeGuardScreens unit (fun _ => tt) (fun _ => tt)) 300 false
          (setSteps unit next
             (closeGuardScreens unit (fun _ => tt) (fun _ => tt))
             {| steps := initialSequencer 2;
                screensState := closeGuardScreens unit (fun _ => tt) (fun _ => tt);
                applyStaticHeight := false; height := None;
                gate := initialGate |}))) = 40
  /\ translateX
       (transition_from unit
          (ModalContent 8 unit
             (closeGuardScreens unit (fun _ => tt) (fun _ => tt)) 300 false
             (setSteps unit prev
                (closeGuardScreens unit (fun _ => tt) (fun _ => tt))
                {| steps := {| stepCount := 2; currentStep := 1; direction := 1 |};
                   screensState := closeGuardScreens unit (fun _ => tt) (fun _ => tt);
                   applyStaticHeight := false; height := None;
                   gate := initialGate |}))) = -40.
Proof.
  assert (HGU : 0 < 8) by lia.
  split.
  - destruct (slide_follows_direction 8 unit
                (closeGuardScreens unit (fun _ => tt) (fun _ => tt)) 300 false
                {| steps := initialSequencer 2;
                   screensState := closeGuardScreens unit (fun _ => tt) (fun _ => tt);
                   applyStaticHeight := false; height := None;
                   gate := initialGate |} HGU)
      as (_ & _ & _ & Hnext & _).
    assert (Hlt : 0 < 2 - 1) by lia.
    exact (proj1 (Hnext Hlt)).
  - destruct (slide_follows_direction 8 unit
                (closeGuardScreens unit (fun _ => tt) (fun _ => tt)) 300 false
                {| steps := {| stepCount := 2; currentStep := 1; direction := 1 |};
                   screensState := closeGuardScreens unit (fun _ => tt) (fun _ => tt);
                   applyStaticHeight := false; height := None;
                   gate := initialGate |} HGU)
      as (_ & _ & _ & _ & Hprev).
    assert (Hlt : 0 < 1) by lia.
    exact (proj1 (Hprev Hlt)).
Defined.

(** A content that has seen no animation start stays at automatic sizing at
    [onStart]; one that has seen one is pinned to the animated height (here
    120); an "enter" rest leaves a pinned content pinned; and in a component
    mounted with the scenario's screens, the second [onStart] pins and the
    "update" rest releases. *)
Lemma container_height_pinning_witness :
  container_height unit
    (ModalContent 8 unit [] 300 false
       (onStart unit true
          {| steps := initialSequencer 0; screensState := [];
             applyStaticHeight := false; height := None;
             gate := initialGate |})) 120 = auto
  /\ container_height unit
       (ModalContent 8 unit [] 300 false
          (onStart unit false
             {| steps := initialSequencer 0; screensState := [];
                applyStaticHeight := false; height := Some 200;
                gate := {| animationObserved := true |} |})) 120 = px 120
  /\ onRest unit "enter"
       {| steps := initialSequencer 0; screensState := [];
          applyStaticHeight := true; height := Some 200;
          gate := {| animationObserved := true |} |}
     = {| steps := initialSequencer 0; screensState := [];
          applyStaticHeight := true; height := Some 200;
          gate := {| animationObserved := true |} |}
  /\ (exists m,
        reacts nat unit [Fire unit steps_next]
          (mount nat unit
             {| visible := true;
                screens := closeGuardScreens unit (fun _ => tt) (fun _ => tt);
                onClose := None |} 0%nat) = Ok m
        /\ pinned nat unit m = false)
  /\ (exists m m' m'',
        reacts nat unit [Fire unit onStart_h; Fire unit steps_next]
          (mount nat unit
             {| visible := true;
                screens := closeGuardScreens unit (fun _ => tt) (fun _ => tt);
                onClose := None |} 0%nat) = Ok m
        /\ react nat unit (Fire unit onStart_h) m = Ok m'
        /\ immediateAnimation (gate_of nat unit m) = false
        /\ pinned nat unit m' = true
        /\ react nat unit (Fire unit (onRest_h "update")) m' = Ok m''
        /\ pinned nat unit m'' = false).
Proof.
  split; [| split; [| split; [| split]]].
  - destruct (container_height_pinning 8 nat unit [] 300 false
                {| steps := initialSequencer 0; screensState := [];
                   applyStaticHeight := false; height := None;
                   gate := initialGate |})
      as (_ & Hskip & _).
    exact (proj2 (Hskip eq_refl) eq_refl 120).
  - destruct (container_height_pinning 8 nat unit [] 300 false
                {| steps := initialSequencer 0; screensState := [];
                   applyStaticHeight := false; height := Some 200;
                   gate := {| animationObserved := true |} |})
      as (_ & _ & _ & Hpin & _).
    exact (proj1 (Hpin eq_refl) 120).
  - destruct (container_height_pinning 8 nat unit [] 300 false
                {| steps := initialSequencer 0; screensState := [];
                   applyStaticHeight := true; height := Some 200;
                   gate := {| animationObserved := true |} |})
      as (_ & _ & _ & _ & _ & Hother & _).
    apply (Hother "enter"%string). discriminate.
  - destruct (container_height_pinning 8 nat unit [] 300 false
                {| steps := initialSequencer 0; screensState := [];
                   applyStaticHeight := false; height := None;
                   gate := initialGate |})
      as (_ & _ & Hreach & _).
    eexists. split; [reflexivity |].
    exact (Hreach {| visible := true;
                     screens := closeGuardScreens unit (fun _ => tt) (fun _ => tt);
                     onClose := None |} 0%nat [Fire unit steps_next] _
             eq_refl eq_refl).
  - destruct (container_height_pinning 8 nat unit [] 300 false
                {| steps := initialSequencer 0; screensState := [];
                   applyStaticHeight := false; height := None;
                   gate := initialGate |})
      as (_ & _ & _ & _ & _ & _ & _ & _ & Hrelease & Hpin).
    eexists. eexists. eexists.
    split; [reflexivity |].
    split; [reflexivity |].
    split; [| split; [| split; [reflexivity | reflexivity]]].
    + match goal with
      | |- immediateAnimation (gate_of _ _ ?m) = false =>
          exact (proj2 (Hpin (Fire unit onStart_h) m _ eq_refl eq_refl eq_refl))
      end.
    + match goal with
      | |- pinned _ _ ?m' = true =>
          refine (Hrelease (Fire unit (onRest_h "enter")) m' _ eq_refl eq_refl _)
      end.
      discriminate.
Defined.

(** Two screens and the index 2; then the scenario's two screens replaced by
    one screen while the component is at step 1. *)
Lemma out_of_range_slot_renders_nothing_witness :
  renderSlot 8 unit
    (useScreens unit (closeGuardScreens unit (fun _ => tt) (fun _ => tt))
       {| steps := initialSequencer 2;
          screensState := closeGuardScreens unit (fun _ => tt) (fun _ => tt);
          applyStaticHeight := false; height := None; gate := initialGate |})
    300 false 2 {| opacity := 1; translateX := 0; position_absolute := false |}
  = []
  /\ exists m m',
       reacts nat unit [Fire unit steps_next]
         (mount nat unit
            {| visible := true;
               screens := closeGuardScreens unit (fun _ => tt) (fun _ => tt);
               onClose := None |} 0%nat) = Ok m
       /\ react nat unit
            (NewScreens unit [ {| title := "X"; content := fun _ => tt;
                                  disableClose := None; width := None |} ]) m
          = Ok m'
       /\ transition_children unit
            (ModalContent 8 unit (screens_of nat unit m') 300 false
               (modalContent unit (state nat unit m')))
            1 {| opacity := 0; translateX := -40; position_absolute := true |}
          = [].
Proof.
  split.
  - assert (Hout : 2 < 0 \/ Z.of_nat 2 <= 2) by (right; simpl; lia).
    destruct (out_of_range_slot_renders_nothing 8 nat unit
                (closeGuardScreens unit (fun _ => tt) (fun _ => tt)) 300 false
                {| steps := initialSequencer 2;
                   screensState := closeGuardScreens unit (fun _ => tt) (fun _ => tt);
                   applyStaticHeight := false; height := None;
                   gate := initialGate |} 2 Hout)
      as (_ & _ & Hslot & _).
    apply Hslot.
  - assert (Hout : 1 < 0 \/ Z.of_nat 0 <= 1) by (right; simpl; lia).
    destruct (out_of_range_slot_renders_nothing 8 nat unit [] 300 false
                {| steps := initialSequencer 0; screensState := [];
                   applyStaticHeight := false; height := None;
                   gate := initialGate |} 1 Hout)
      as (_ & _ & _ & _ & Hreplaced).
    match goal with
    | |- exists m m', ?r = Ok m /\ _ =>
        let v := eval cbv in r in
        match v with
        | Ok ?m0 => pose (m := m0)
        end
    end.
    exists m. eexists.
    split; [reflexivity |]. split; [reflexivity |].
    assert (Hlen : Z.of_nat 1 <= 1) by (simpl; lia).
    exact (Hreplaced m _
             [ {| title := "X"; content := fun _ => tt;
                  disableClose := None; width := None |} ]
             _ Hlen eq_refl).
Defined.

(** * The further properties at concrete inputs *)

(** Runs the reaction of a goal [exists m, r = Ok m /\ _] and names its
    result. *)
Ltac run_as name Hname :=
  match goal with
  | |- exists m, ?r = Ok m /\ _ =>
      let v := eval cbv in r in
      match v with
      | Ok ?m0 =>
          pose (name := m0);
          assert (Hname : r = Ok name) by reflexivity;
          exists name; split; [exact Hname |]
      end
  end.

(** A screen 500 wide in viewports of 332 and 1032 with [GU = 8]: clamped
    to 300 in the first, its own 500 in the second. *)
Lemma rendered_widths_fit_viewport_witness :
  (exists v,
     render 8 nat unit 332 false
       (mount nat unit
          {| visible := true;
             screens := [ {| title := "W"; content := fun _ => tt;
                             disableClose := None; width := Some 500 |} ];
             onClose := None |} 0%nat) = Ok v
     /\ modal_width unit v <= 300
     /\ Forall (fun d => slot_width unit d <= 300)
          (transition_children unit (modal_children unit v) 0
             {| opacity := 1; translateX := 0; position_absolute := false |}))
  /\ (exists v,
        render 8 nat unit 1032 false
          (mount nat unit
             {| visible := true;
                screens := [ {| title := "W"; content := fun _ => tt;
                                disableClose := None; width := Some 500 |} ];
                onClose := None |} 0%nat) = Ok v
        /\ modal_width unit v = 500
        /\ Forall (fun d => slot_width unit d = 500)
             (transition_children unit (modal_children unit v) 0
                {| opacity := 1; translateX := 0; position_absolute := false |})).
Proof.
  split.
  - run_as v Hv.
    destruct (rendered_widths_fit_viewport 8 nat unit _ 332 false v Hv)
      as (Hmodal & Hslot & _).
    split; [exact Hmodal |].
    apply Forall_forall. intros d Hd. exact (Hslot _ _ d Hd).
  - run_as v Hv.
    destruct (rendered_widths_fit_viewport 8 nat unit _ 1032 false v Hv)
      as (_ & _ & Hmodal & Hslot).
    assert (Hfits : modalWidth 8 (Some 500) <= 1032 - 4 * 8)
      by (unfold modalWidth; simpl; lia).
    split.
    + exact (Hmodal _ eq_refl Hfits).
    + apply Forall_forall. intros d Hd.
      exact (Hslot _ _ d _ Hd eq_refl Hfits).
Defined.

(** The scenario with [onClose] counting its calls: no close button and no
    call at screen A, a close button and one call at screen B. *)
Lemma close_button_matches_guard_witness :
  (exists v,
     render 8 nat unit 1032 false
       (mount nat unit
          {| visible := true;
             screens := closeGuardScreens unit (fun _ => tt) (fun _ => tt);
             onClose := Some S |} 0%nat) = Ok v
     /\ modal_closeButton unit v = false
     /\ world_after nat unit
          (invoke nat unit (modal_onClose unit v)
             (mount nat unit
                {| visible := true;
                   screens := closeGuardScreens unit (fun _ => tt) (fun _ => tt);
                   onClose := Some S |} 0%nat)) = Ok 0%nat)
  /\ (exists m,
        reacts nat unit [Fire unit steps_next]
          (mount nat unit
             {| visible := true;
                screens := closeGuardScreens unit (fun _ => tt) (fun _ => tt);
                onClose := Some S |} 0%nat) = Ok m
        /\ exists v,
             render 8 nat unit 1032 false m = Ok v
             /\ modal_closeButton unit v = true
             /\ world_after nat unit (invoke nat unit (modal_onClose unit v) m)
                = Ok 1%nat).
Proof.
  split.
  - run_as v Hv. split; [reflexivity |].
    destruct (close_button_matches_guard 8 nat unit _ 1032 false v S
                Hv eq_refl) as (_ & Hhidden).
    rewrite (Hhidden eq_refl). reflexivity.
  - run_as m Hrun. run_as v Hv. split; [reflexivity |].
    destruct (close_button_matches_guard 8 nat unit m 1032 false v S
                Hv eq_refl) as (Hshown & _).
    rewrite (Hshown eq_refl). reflexivity.
Defined.

(** In the scenario with [onClose] counting its calls: [next()] counts
    nothing; [closeModal] counts one call and stays at step 0 with the same
    props. *)
Lemma only_close_requests_reach_onClose_witness :
  (exists m',
     react nat unit (Fire unit steps_next)
       (mount nat unit
          {| visible := true;
             screens := closeGuardScreens unit (fun _ => tt) (fun _ => tt);
             onClose := Some S |} 0%nat) = Ok m'
     /\ world nat unit m' = 0%nat)
  /\ (exists m',
        react nat unit (Fire unit prop_onClose)
          (mount nat unit
             {| visible := true;
                screens := closeGuardScreens unit (fun _ => tt) (fun _ => tt);
                onClose := Some S |} 0%nat) = Ok m'
        /\ currentStep (steps_of nat unit m') = 0
        /\ pinned nat unit m' = false
        /\ props nat unit m'
           = {| visible := true;
                screens := closeGuardScreens unit (fun _ => tt) (fun _ => tt);
                onClose := Some S |}).
Proof.
  split.
  - run_as m' Hrun.
    destruct (only_close_requests_reach_onClose nat unit _ _ m' Hrun)
      as (Hworld & _).
    rewrite (Hworld eq_refl). reflexivity.
  - run_as m' Hrun.
    destruct (only_close_requests_reach_onClose nat unit _ _ m' Hrun)
      as (_ & Hclose & Hprops).
    destruct (Hclose eq_refl) as (_ & Hstep & _ & _ & Hpinned & _).
    rewrite Hstep, Hpinned, (Hprops eq_refl).
    split; [reflexivity | split; reflexivity].
Defined.

(** [closeModal] with no [onClose] supplied, and with one that counts. *)
Lemma closeModal_always_completes_witness :
  world_after nat unit
    (invoke nat unit prop_onClose
       (mount nat unit
          {| visible := true; screens := []; onClose := None |} 7%nat))
  = Ok 7%nat
  /\ world_after nat unit
       (invoke nat unit prop_onClose
          (mount nat unit
             {| visible := true; screens := []; onClose := Some S |} 7%nat))
     = Ok 8%nat.
Proof.
  split.
  - destruct (closeModal_always_completes 8 nat unit
                (mount nat unit
                   {| visible := true; screens := []; onClose := None |} 7%nat))
      as (_ & w' & Hinvoke & Hnone & _).
    rewrite Hinvoke, (Hnone eq_refl). reflexivity.
  - destruct (closeModal_always_completes 8 nat unit
                (mount nat unit
                   {| visible := true; screens := []; onClose := Some S |} 7%nat))
      as (_ & w' & Hinvoke & _ & Hsome).
    rewrite Hinvoke, (Hsome S eq_refl). reflexivity.
Defined.

(** The slot of step 1 over the scenario's screens shows screen B. *)
Lemma slot_shows_the_screen_of_its_step_witness :
  map (fun d => h1_text unit (slot_children unit d))
    (renderSlot 8 unit
       (useScreens unit []
          {| steps := initialSequencer 2;
             screensState := closeGuardScreens unit (fun _ => tt) (fun _ => tt);
             applyStaticHeight := false; height := None; gate := initialGate |})
       300 false 1
       {| opacity := 1; translateX := 0; position_absolute := false |})
  = ["B"%string].
Proof.
  destruct (slot_shows_the_screen_of_its_step 8 unit [] 300 false
              {| steps := initialSequencer 2;
                 screensState := closeGuardScreens unit (fun _ => tt) (fun _ => tt);
                 applyStaticHeight := false; height := None;
                 gate := initialGate |} 1
              {| opacity := 1; translateX := 0; position_absolute := false |})
    as (_ & Hcovered).
  destruct (Hcovered eq_refl) as (screen & Hscreen & Htitle & _).
  rewrite Htitle. injection Hscreen as <-. reflexivity.
Defined.

(** Measures of 120 and 200 among other events: the target is 200, a
    [prev()] keeps it, a measure of 90 replaces it. *)
Lemma spring_targets_last_measure_witness :
  exists m,
    reacts nat unit
      [Fire unit (ref_h 120); Fire unit steps_next; Fire unit (ref_h 200);
       Fire unit onStart_h]
      (mount nat unit
         {| visible := true;
            screens := closeGuardScreens unit (fun _ => tt) (fun _ => tt);
            onClose := None |} 0%nat) = Ok m
    /\ spring_to_height unit
         (ModalContent 8 unit (screens_of nat unit m) 300 false
            (modalContent unit (state nat unit m))) = Some 200
    /\ (exists m',
          react nat unit (Fire unit steps_prev) m = Ok m'
          /\ height unit (modalContent unit (state nat unit m')) = Some 200)
    /\ (exists m',
          react nat unit (Fire unit (ref_h 90)) m = Ok m'
          /\ height unit (modalContent unit (state nat unit m')) = Some 90).
Proof.
  run_as m Hrun.
  destruct (spring_targets_last_measure 8 nat unit _ _ _ m Hrun)
    as (_ & Htarget & Hkept & Hmeasured).
  split; [exact (Htarget 300 false) |].
  split.
  - run_as m' Hrun'.
    refine (Hkept _ m' Hrun' _). intros clientHeight. discriminate.
  - run_as m' Hrun'.
    exact (Hmeasured 90 m' Hrun').
Defined.

(** No screens: the first render throws.  The scenario's screens: the first
    render shows screen A without a close button. *)
Lemma first_render_needs_a_screen_witness :
  render 8 nat unit 1032 false
    (mount nat unit {| visible := true; screens := []; onClose := None |} 0%nat)
  = Throw TypeError
  /\ (exists v,
        render 8 nat unit 1032 false
          (mount nat unit
             {| visible := true;
                screens := closeGuardScreens unit (fun _ => tt) (fun _ => tt);
                onClose := None |} 0%nat) = Ok v
        /\ modal_closeButton unit v = false
        /\ modal_width unit v = 640)
  /\ (exists m',
        react nat unit (NewScreens unit [])
          (mount nat unit
             {| visible := true;
                screens := closeGuardScreens unit (fun _ => tt) (fun _ => tt);
                onClose := None |} 0%nat) = Ok m'
        /\ render 8 nat unit 1032 false m' = Throw TypeError).
Proof.
  split; [| split].
  - destruct (first_render_needs_a_screen 8 nat unit
                {| visible := true; screens := []; onClose := None |} 0%nat
                1032 false) as (Hempty & _).
    exact (Hempty eq_refl).
  - destruct (first_render_needs_a_screen 8 nat unit
                {| visible := true;
                   screens := closeGuardScreens unit (fun _ => tt) (fun _ => tt);
                   onClose := None |} 0%nat 1032 false) as (_ & Hfirst & _).
    destruct (Hfirst _ _ eq_refl) as (v & Hv & Hbutton & Hwidth & _).
    exists v. split; [exact Hv |]. rewrite Hbutton, Hwidth.
    split; reflexivity.
  - run_as m' Hrun.
    destruct (first_render_needs_a_screen 8 nat unit
                {| visible := true; screens := []; onClose := None |} 0%nat
                1032 false) as (_ & _ & Hlater).
    exact (Hlater _ m' Hrun).
Defined.

(** Evaluates a reaction or render [r] and names its result. *)
Ltac compute_as name Hname r :=
  let v := eval cbv in r in
  match v with
  | Ok ?x => pose (name := x); assert (Hname : r = Ok name) by reflexivity
  end.

(** The scenario's two screens replaced by the single screen X, at step 0:
    right after the update the current screen is still A; after the effects
    it is X, and nothing is at index 1. *)
Lemma effects_settle_and_mirror_witness :
  exists m1,
    update nat unit
      (NewScreens unit [ {| title := "X"; content := fun _ => tt;
                            disableClose := None; width := Some 500 |} ])
      (mount nat unit
         {| visible := true;
            screens := closeGuardScreens unit (fun _ => tt) (fun _ => tt);
            onClose := Some S |} 0%nat) = Ok m1
    /\ option_map (title unit) (currentScreen unit (state nat unit m1))
       = Some "A"%string
    /\ option_map (title unit)
         (currentScreen unit
            (state nat unit
               (onScreenChangeEffect nat unit
                  (setScreensStateEffect nat unit m1))))
       = Some "X"%string
    /\ option_map (title unit)
         (us_getScreen unit
            (useScreens unit
               [ {| title := "X"; content := fun _ => tt;
                    disableClose := None; width := Some 500 |} ]
               (modalContent unit
                  (state nat unit
                     (onScreenChangeEffect nat unit
                        (setScreensStateEffect nat unit m1))))) 1) = None.
Proof.
  run_as m1 Hrun.
  destruct (effects_settle_and_mirror 8 nat unit _ _ m1 Hrun)
    as (_ & _ & _ & (Hlag & _) & (_ & Hmirror & _) & _ & Hnew).
  split; [rewrite Hlag; reflexivity |].
  split; [rewrite Hmirror; reflexivity |].
  destruct (Hnew _ 1 eq_refl) as [_ ->]. reflexivity.
Defined.

(** A screen 300 wide followed by one 500 wide, in a viewport of 1032 with
    [GU = 8]: right after [next()] the [Modal] is still 300 wide while the
    slot of step 1 is 500 wide; after the effects both are 500 wide. *)
Lemma modal_follows_onScreenChange_witness :
  exists m1,
    update nat unit (Fire unit steps_next)
      (mount nat unit
         {| visible := true;
            screens := [ {| title := "A"; content := fun _ => tt;
                            disableClose := None; width := Some 300 |};
                         {| title := "B"; content := fun _ => tt;
                            disableClose := None; width := Some 500 |} ];
            onClose := None |} 0%nat) = Ok m1
    /\ (exists v1,
          render 8 nat unit 1032 false m1 = Ok v1
          /\ modal_width unit v1 = 300
          /\ map (slot_width unit)
               (transition_children unit (modal_children unit v1)
                  (transition_items unit (modal_children unit v1))
                  {| opacity := 1; translateX := 0; position_absolute := false |})
             = [500])
    /\ (exists v,
          render 8 nat unit 1032 false (runEffects nat unit m1) = Ok v
          /\ modal_width unit v = 500
          /\ map (slot_width unit)
               (transition_children unit (modal_children unit v)
                  (transition_items unit (modal_children unit v))
                  {| opacity := 1; translateX := 0; position_absolute := false |})
             = [500]).
Proof.
  run_as m1 Hrun.
  destruct (modal_follows_onScreenChange 8 nat unit 1032 false)
    as (Hlag & Hsettled).
  split.
  - run_as v1 Hv1.
    compute_as v0 Hv0
      (render 8 nat unit 1032 false
         (mount nat unit
            {| visible := true;
               screens := [ {| title := "A"; content := fun _ => tt;
                               disableClose := None; width := Some 300 |};
                            {| title := "B"; content := fun _ => tt;
                               disableClose := None; width := Some 500 |} ];
               onClose := None |} 0%nat)).
    destruct (Hlag _ _ m1 v0 Hrun Hv0) as (v1' & Hv1' & Hwidth & _).
    assert (E : v1' = v1) by congruence.
    rewrite E in Hwidth. rewrite Hwidth.
    split; reflexivity.
  - run_as v Hv.
    assert (Hs : settled nat unit (runEffects nat unit m1))
      by (exists m1; reflexivity).
    rewrite (Hsettled _ v Hs Hv).
    split; reflexivity.
Defined.

(** The scenario at step 1: it renders with B's close button.  When the
    list is replaced by the single screen X, the render right after the
    update still succeeds; after the effects the step 1 is not covered and
    the render throws. *)
Lemma render_throws_iff_step_uncovered_witness :
  exists m,
    reacts nat unit [Fire unit steps_next]
      (mount nat unit
         {| visible := true;
            screens := closeGuardScreens unit (fun _ => tt) (fun _ => tt);
            onClose := None |} 0%nat) = Ok m
    /\ (exists v,
          render 8 nat unit 1032 false m = Ok v
          /\ modal_closeButton unit v = true)
    /\ (exists m1,
          update nat unit
            (NewScreens unit [ {| title := "X"; content := fun _ => tt;
                                  disableClose := None; width := None |} ]) m
          = Ok m1
          /\ succeeds (render 8 nat unit 1032 false m1) = true)
    /\ (exists m',
          react nat unit
            (NewScreens unit [ {| title := "X"; content := fun _ => tt;
                                  disableClose := None; width := None |} ]) m
          = Ok m'
          /\ render 8 nat unit 1032 false m' = Throw TypeError).
Proof.
  run_as m Hrun.
  assert (Hs : settled nat unit m)
    by exact (reacts_settled nat unit _ _ _ Hrun (mount_settled nat unit _ _)).
  destruct (render_throws_iff_step_uncovered 8 nat unit 1032 false)
    as (_ & Hupdate & Hsettled).
  split; [| split].
  - run_as v Hv.
    destruct (Hsettled m Hs) as (_ & _ & Hok).
    destruct (Hok v Hv) as (cs & Hcs & Hbutton & _).
    rewrite Hbutton. injection Hcs as <-. reflexivity.
  - run_as m1 Hrun1.
    rewrite (proj1 (Hupdate _ m m1 Hrun1)). reflexivity.
  - run_as m' Hrun'.
    destruct (Hsettled m' (react_settled nat unit _ _ _ Hrun'))
      as (_ & Hthrow & _).
    exact (Hthrow eq_refl).
Defined.


